(** * bg.remover: validation, normalisation and HTTP layer

    A shallow embedding of [app/config.py], [app/services/bg_service.py],
    [app/routers/remove_bg.py] and [app/main.py].

    - Python [str] values are sequences of Unicode code points.
    - Python [bytes] values are lists of [Byte.byte].
    - Python [float] is IEEE binary64, embedded with the primitive floats.
    - Pillow and rembg are collaborators: the imaging calls are fields of
      a class, every call is recorded in a trace and may raise.
    - Of the HTTP framework, the rendering of an [HTTPException] and the
      latin-1 encoding of response headers are embedded. *)

From Stdlib Require Import ZArith NArith List String Ascii Bool Lia Permutation.
From Stdlib Require Import DecimalString.
From Stdlib Require Import PrimFloat FloatOps SpecFloat Uint63.
Import ListNotations.

Local Open Scope Z_scope.

(** ** Python strings *)

Module PyStr.

Definition codepoint := N.
Definition str := list codepoint.

Definition str_eq_dec : forall a b : str, {a = b} + {a <> b} :=
  list_eq_dec N.eq_dec.

(** An ASCII literal of the source, as a [str]. *)
Fixpoint lit (s : string) : str :=
  match s with
  | EmptyString => []
  | String a r => N_of_ascii a :: lit r
  end.

Definition dot : codepoint := 46%N.

(** [len(s)] *)
Definition len {A} (s : list A) : Z := Z.of_nat (List.length s).

(** The lower-case mapping of one code point. ASCII, Latin-1, U+0130
    (the only code point whose lower case is two code points long),
    U+212A and U+212B (the only code points outside Latin-1 used here that
    map into Latin-1) are embedded; the rest of the Unicode case table,
    which maps single code points to single code points outside ASCII, is
    left as the identity. *)
Definition lower_cp (c : codepoint) : str :=
  (if (65 <=? c) && (c <=? 90) then [c + 32]
   else if (192 <=? c) && (c <=? 222) && negb (c =? 215) then [c + 32]
   else if c =? 304 then [105; 775]
   else if c =? 8490 then [107]
   else if c =? 8491 then [229]
   else [c])%N.

(** [s.lower()] *)
Definition lower (s : str) : str := flat_map lower_cp s.

(** [s.rfind(c)] for a one-character needle: the highest index of [c],
    or [-1]. *)
Fixpoint rfind (c : codepoint) (s : str) : Z :=
  match s with
  | [] => -1
  | x :: r =>
      let k := rfind c r in
      if 0 <=? k then k + 1
      else if (x =? c)%N then 0
      else -1
  end.

(** [s[i:]]: a negative index counts from the end, and both ends are
    clamped; slicing never raises. *)
Definition slice_from {A} (s : list A) (i : Z) : list A :=
  let n := len s in
  let start := if i <? 0 then Z.max 0 (i + n) else Z.min i n in
  skipn (Z.to_nat start) s.

(** [s.rsplit(c, 1)] for a one-character separator. *)
Definition rsplit1 (c : codepoint) (s : str) : list str :=
  let k := rfind c s in
  if k <? 0 then [s]
  else [firstn (Z.to_nat k) s; skipn (Z.to_nat k + 1) s].

(** [l[0]] on a list that [rsplit] returned (never empty). *)
Definition item0 (l : list str) : str := hd [] l.

(** [sep.join(l)] *)
Fixpoint join (sep : str) (l : list str) : str :=
  match l with
  | [] => []
  | x :: r =>
      match r with
      | [] => x
      | _ :: _ => x ++ sep ++ join sep r
      end
  end.

(** [str(n)] for an [int]. *)
Definition str_of_int (n : Z) : str := lit (NilZero.string_of_int (Z.to_int n)).

(** [s.startswith(p)] *)
Fixpoint startswith (p s : str) : bool :=
  match p, s with
  | [], _ => true
  | _ :: _, [] => false
  | a :: p', b :: s' => (a =? b)%N && startswith p' s'
  end.

(** [p in s] for substrings. *)
Fixpoint contains (p s : str) : bool :=
  startswith p s ||
  match s with
  | [] => false
  | _ :: s' => contains p s'
  end.

End PyStr.

Import PyStr.

(** ** Python floats (IEEE binary64) *)

Module PyFloat.

(** [float(n)], exact for [|n| < 2^53] and rounded to nearest below
    [2^63]; image dimensions, byte counts and limits are far below. *)
Definition float_of_int (n : Z) : float :=
  if n <? 0 then PrimFloat.opp (PrimFloat.of_uint63 (Uint63.of_Z (- n)))
  else PrimFloat.of_uint63 (Uint63.of_Z n).

(** [a / b] on two [int]s with [b] not zero: both operands convert exactly,
    so the correctly rounded quotient is the binary64 division. *)
Definition truediv (a b : Z) : float :=
  PrimFloat.div (float_of_int a) (float_of_int b).

(** [n * x] with [n] an [int] and [x] a [float]. *)
Definition mul_int (n : Z) (x : float) : float :=
  PrimFloat.mul (float_of_int n) x.

(** [int(x)]: truncation toward zero; raises on infinities and NaN. *)
Definition to_int (x : float) : str + Z :=
  match Prim2SF x with
  | S754_zero _ => inr 0
  | S754_finite s m e =>
      let mag := if 0 <=? e then Z.pos m * 2 ^ e else Z.pos m / 2 ^ (- e) in
      inr (if s then - mag else mag)
  | S754_infinity _ => inl (lit "cannot convert float infinity to integer")
  | S754_nan => inl (lit "cannot convert float NaN to integer")
  end.

Definition two_digits (d : Z) : str :=
  [Z.to_N (48 + d / 10); Z.to_N (48 + d mod 10)].

(** [f"{x:.2f}"]: the exact value of [x], rounded half-to-even to
    hundredths. *)
Definition format_2f (x : float) : str :=
  match Prim2SF x with
  | S754_zero s => (if s then lit "-" else []) ++ lit "0.00"
  | S754_finite s m e =>
      let num := Z.pos m * 100 * 2 ^ (Z.max e 0) in
      let den := 2 ^ (Z.max (- e) 0) in
      let q := num / den in
      let r := num mod den in
      let h := if den <? 2 * r then q + 1
               else if (2 * r =? den) && Z.odd q then q + 1
               else q in
      (if s then lit "-" else [])
        ++ str_of_int (h / 100) ++ [dot] ++ two_digits (h mod 100)
  | S754_infinity s => if s then lit "-inf" else lit "inf"
  | S754_nan => lit "nan"
  end.

End PyFloat.

(** ** app/config.py *)

Module config.

(** The attributes of [Settings]. Every field is read from the
    environment when the class body runs, with the defaults of
    [default_settings]; [API_DESCRIPTION] is documentation text and is
    left out. *)
Record Settings := mkSettings {
  HOST : str;
  PORT : Z;
  MAX_FILE_SIZE_MB : Z;
  MAX_IMAGE_WIDTH : Z;
  API_TITLE : str;
  API_VERSION : str
}.

(** [MAX_FILE_SIZE_BYTES = MAX_FILE_SIZE_MB * 1024 * 1024] *)
Definition MAX_FILE_SIZE_BYTES (s : Settings) : Z :=
  MAX_FILE_SIZE_MB s * 1024 * 1024.

(** [ALLOWED_EXTENSIONS = {".jpg", ".jpeg", ".png"}]: a set literal, not
    read from the environment. The list carries its members; the order in
    which Python iterates over the set is a separate matter (see
    [bg_service]). *)
Definition ALLOWED_EXTENSIONS : list str :=
  [lit ".jpg"; lit ".jpeg"; lit ".png"].

(** The values with an empty environment. *)
Definition default_settings : Settings :=
  {| HOST := lit "0.0.0.0";
     PORT := 8000;
     MAX_FILE_SIZE_MB := 5;
     MAX_IMAGE_WIDTH := 1024;
     API_TITLE := lit "Background Remover API";
     API_VERSION := lit "1.0.0" |}.

End config.

Import config.

(** ** Exceptions and traced calls *)

Definition bytes := list Byte.byte.

(** A Pillow image object: its size and the rest of its content. *)
Record Image := mkImage {
  width : Z;
  height : Z;
  raster : bytes
}.

(** The exceptions of the request handler: the framework's
    [HTTPException], and any other [Exception], kept as its [str(e)]. *)
Inductive PyExc :=
| HTTPException (status_code : Z) (detail : str)
| Exception (msg : str).

Inductive Method := validate_image_method | remove_background_method.

(** What a request does that can be observed from outside the handler:
    entering a service method and calling a collaborator. *)
Inductive Event :=
| EvEnter (f : Method)
| EvOpen (data : bytes)
| EvVerify (im : Image)
| EvResize (im : Image) (size : Z * Z)
| EvRemove (im : Image)
| EvSave (im : Image).

(** A computation: the trace of its calls, and an exception or a value. *)
Definition M (A : Type) : Type := (list Event * (PyExc + A))%type.

Definition ret {A} (x : A) : M A := ([], inr x).

Definition raise {A} (e : PyExc) : M A := ([], inl e).

Definition bind {A B} (m : M A) (f : A -> M B) : M B :=
  match m with
  | (t, inl e) => (t, inl e)
  | (t, inr x) => let (t', r) := f x in (t ++ t', r)
  end.

(** [try: m  except ...: h e] *)
Definition try_except {A} (m : M A) (h : PyExc -> M A) : M A :=
  match m with
  | (t, inl e) => let (t', r) := h e in (t ++ t', r)
  | (t, inr x) => (t, inr x)
  end.

(** A call of a collaborator: recorded, and its failure raised. *)
Definition call {A} (ev : Event) (r : str + A) : M A :=
  ([ev], match r with inl m => inl (Exception m) | inr x => inr x end).

Definition enter (f : Method) : M unit := ([EvEnter f], inr tt).

Definition trace {A} (m : M A) : list Event := fst m.
Definition outcome {A} (m : M A) : PyExc + A := snd m.

Notation "x <- m ;; k" := (bind m (fun x => k))
  (at level 61, m at next level, right associativity).
Notation "m ;;; k" := (bind m (fun _ => k))
  (at level 61, right associativity).

(** The imaging collaborators: Pillow's [Image.open], [Image.verify],
    [Image.resize] (always called with the Lanczos filter),
    [Image.save(format="PNG")], and rembg's [remove]. Each returns its
    result or the [str] of the exception it raises. *)
Class Imaging := {
  Image_open : bytes -> str + Image;
  Image_verify : Image -> str + unit;
  Image_resize : Image -> Z * Z -> str + Image;
  rembg_remove : Image -> str + Image;
  Image_save_png : Image -> str + bytes
}.

(** ** app/services/bg_service.py *)

Module bg_service.
Section BackgroundRemovalService.

Context {imaging : Imaging}.
Variable settings : Settings.

(** The order in which this process iterates over the set
    [ALLOWED_EXTENSIONS]; Python fixes no order for a set of strings. *)
Variable allowed_iter : list str.

(** [ratio = settings.MAX_IMAGE_WIDTH / input_image.width] and
    [new_height = int(input_image.height * ratio)]; the division raises on
    a zero width. *)
Definition new_height (im : Image) : M Z :=
  if width im =? 0 then raise (Exception (lit "division by zero"))
  else
    let ratio := PyFloat.truediv (MAX_IMAGE_WIDTH settings) (width im) in
    match PyFloat.to_int (PyFloat.mul_int (height im) ratio) with
    | inl msg => raise (Exception msg)
    | inr h => ret h
    end.

(** Step 2 of [remove_background]: resize when wider than the limit. *)
Definition resize_if_too_wide (input_image : Image) : M Image :=
  if width input_image >? MAX_IMAGE_WIDTH settings then
    h <- new_height input_image ;;
    call (EvResize input_image (MAX_IMAGE_WIDTH settings, h))
         (Image_resize input_image (MAX_IMAGE_WIDTH settings, h))
  else ret input_image.

(** Steps 1 to 4: open, resize if needed, remove the background, save as
    PNG. *)
Definition remove_background (image_bytes : bytes) : M bytes :=
  enter remove_background_method ;;;
  input_image <- call (EvOpen image_bytes) (Image_open image_bytes) ;;
  input_image <- resize_if_too_wide input_image ;;
  output_image <- call (EvRemove input_image) (rembg_remove input_image) ;;
  call (EvSave output_image) (Image_save_png output_image).

(** [filename.lower()[filename.rfind('.'):]] *)
Definition file_extension (filename : str) : str :=
  slice_from (lower filename) (rfind dot filename).

(** The three messages of [validate_image]. *)
Definition size_reason (image_bytes : bytes) : str :=
  let file_size_mb := PyFloat.truediv (len image_bytes) (1024 * 1024) in
  lit "File too large. Maximum size is "
    ++ str_of_int (MAX_FILE_SIZE_MB settings)
    ++ lit "MB, got " ++ PyFloat.format_2f file_size_mb ++ lit "MB".

Definition extension_reason : str :=
  let allowed := join (lit ", ") allowed_iter in
  lit "Invalid file type. Allowed types: " ++ allowed.

(** [str(e)] of a collaborator's exception is its message; the imaging
    libraries never raise the framework's [HTTPException], whose rendering
    is there for totality. *)
Definition corrupted_reason (e : PyExc) : str :=
  lit "Invalid or corrupted image file: "
    ++ match e with
       | Exception msg => msg
       | HTTPException c d => str_of_int c ++ lit ": " ++ d
       end.

(** Checks 1 to 3, in their order; the [try] around check 3 catches every
    exception of [Image.open] and [verify]. *)
Definition validate_image (image_bytes : bytes) (filename : str)
  : M (bool * str) :=
  enter validate_image_method ;;;
  if len image_bytes >? MAX_FILE_SIZE_BYTES settings then
    ret (false, size_reason image_bytes)
  else if in_dec str_eq_dec (file_extension filename) ALLOWED_EXTENSIONS then
    try_except
      (image <- call (EvOpen image_bytes) (Image_open image_bytes) ;;
       call (EvVerify image) (Image_verify image) ;;;
       ret (true, []))
      (fun e => ret (false, corrupted_reason e))
  else
    ret (false, extension_reason).

End BackgroundRemovalService.
End bg_service.

(** ** The framework's request and response objects *)

(** [UploadFile]: the declared file name and the content that
    [await file.read()] returns. *)
Record UploadFile := mkUploadFile {
  filename : str;
  read : bytes
}.

(** The response object that [StreamingResponse(content, media_type=...,
    headers=...)] builds; the status is the constructor's default, 200. *)
Record StreamingResponse := mkStreamingResponse {
  body : bytes;
  response_status : Z;
  media_type : str;
  headers : list (str * str)
}.

Definition StreamingResponse_new (content : bytes) (mt : str)
  (hs : list (str * str)) : StreamingResponse :=
  {| body := content; response_status := 200; media_type := mt; headers := hs |}.

(** The framework encodes header names and values as latin-1 while the
    response is constructed. [s.encode("latin-1")] raises a
    UnicodeEncodeError at the first code point above 255; its [str]
    names that character, or the positions of the run of such characters
    that starts there. *)
Definition hex_digit (d : N) : codepoint :=
  (if d <? 10 then 48 + d else 87 + d)%N.

Fixpoint hex_padded (width : nat) (n : N) : str :=
  match width with
  | O => []
  | S w => hex_padded w (n / 16)%N ++ [hex_digit (n mod 16)%N]
  end.

Definition escaped_char (c : codepoint) : str :=
  if (c <? 256)%N then lit "\x" ++ hex_padded 2 c
  else if (c <? 65536)%N then lit "\u" ++ hex_padded 4 c
  else lit "\U" ++ hex_padded 8 c.

(** The number of code points above 255 at the head of a string. *)
Fixpoint unencodable_run (s : str) : nat :=
  match s with
  | [] => O
  | c :: r => if (c <? 256)%N then O else S (unencodable_run r)
  end.

Fixpoint latin1_error_from (pos : Z) (s : str) : option str :=
  match s with
  | [] => None
  | c :: r =>
      if (c <? 256)%N then latin1_error_from (pos + 1) r
      else
        let more := Z.of_nat (unencodable_run r) in
        Some
          (if more =? 0
           then lit "'latin-1' codec can't encode character '"
                  ++ escaped_char c ++ lit "' in position "
                  ++ str_of_int pos ++ lit ": ordinal not in range(256)"
           else lit "'latin-1' codec can't encode characters in position "
                  ++ str_of_int pos ++ lit "-" ++ str_of_int (pos + more)
                  ++ lit ": ordinal not in range(256)")
  end.

(** The [str] of the error of [s.encode("latin-1")], if it raises. *)
Definition latin1_error (s : str) : option str := latin1_error_from 0 s.

(** [init_headers]: every header, its lower-cased name and then its value,
    in the order of the dictionary; then the content type built from the
    media type, unless a header gives one. *)
Fixpoint headers_error (hs : list (str * str)) : option str :=
  match hs with
  | [] => None
  | (k, v) :: r =>
      match latin1_error (lower k) with
      | Some msg => Some msg
      | None =>
          match latin1_error v with
          | Some msg => Some msg
          | None => headers_error r
          end
      end
  end.

Definition content_type_value (mt : str) : str :=
  if startswith (lit "text/") mt && negb (contains (lit "charset=") (lower mt))
  then mt ++ lit "; charset=utf-8"
  else mt.

Definition init_headers_error (mt : str) (hs : list (str * str)) : option str :=
  match headers_error hs with
  | Some msg => Some msg
  | None =>
      if in_dec str_eq_dec (lit "content-type") (map (fun kv => lower (fst kv)) hs)
      then None
      else latin1_error (content_type_value mt)
  end.

(** The call [StreamingResponse(content, media_type=mt, headers=hs)]: the
    object, unless the encoding of a header raises. *)
Definition StreamingResponse_init (content : bytes) (mt : str)
  (hs : list (str * str)) : M StreamingResponse :=
  match init_headers_error mt hs with
  | Some msg => raise (Exception msg)
  | None => ret (StreamingResponse_new content mt hs)
  end.

(** The values of the dictionaries the two GET handlers return. *)
Inductive Json :=
| JStr (s : str)
| JObj (fields : list (str * str)).

(** [d[key]] as [d.get(key)]: the first binding of the key. *)
Fixpoint dict_get {V} (key : str) (d : list (str * V)) : option V :=
  match d with
  | [] => None
  | (k, v) :: r => if str_eq_dec k key then Some v else dict_get key r
  end.

(** What the client receives for a handler's outcome: the response the
    handler returned, or the framework's rendering of an [HTTPException]
    (that status, and a body [{"detail": detail}]). Any other exception
    leaving a handler is the framework's plain 500. *)
Inductive Reply :=
| ReplyStream (r : StreamingResponse)
| ReplyDetail (status : Z) (detail : str)
| ReplyServerError.

Definition reply_of (o : PyExc + StreamingResponse) : Reply :=
  match o with
  | inr r => ReplyStream r
  | inl (HTTPException c d) => ReplyDetail c d
  | inl (Exception _) => ReplyServerError
  end.

Definition reply_status (r : Reply) : Z :=
  match r with
  | ReplyStream r => response_status r
  | ReplyDetail c _ => c
  | ReplyServerError => 500
  end.

(** ** app/routers/remove_bg.py *)

Module remove_bg.
Section Router.

Context {imaging : Imaging}.
Variable settings : Settings.
Variable allowed_iter : list str.

(** [f"attachment; filename=no_bg_{file.filename.rsplit('.', 1)[0]}.png"] *)
Definition content_disposition (file : UploadFile) : str :=
  lit "attachment; filename=no_bg_"
    ++ item0 (rsplit1 dot (filename file)) ++ lit ".png".

(** The two [except] clauses, in their order: an [HTTPException] is
    raised again, anything else becomes a 500. *)
Definition on_exception {A} (e : PyExc) : M A :=
  match e with
  | HTTPException _ _ => raise e
  | Exception msg =>
      raise (HTTPException 500 (lit "Error processing image: " ++ msg))
  end.

(** [POST /api/remove-bg] *)
Definition remove_background (file : UploadFile) : M StreamingResponse :=
  try_except
    (let image_bytes := read file in
     v <- bg_service.validate_image settings allowed_iter
            image_bytes (filename file) ;;
     let (is_valid, error_message) := v : bool * str in
     if negb is_valid then raise (HTTPException 400 error_message)
     else
       output_bytes <- bg_service.remove_background settings image_bytes ;;
       StreamingResponse_init output_bytes (lit "image/png")
         [(lit "Content-Disposition", content_disposition file)])
    on_exception.

(** [GET /api/health] *)
Definition health_check : list (str * Json) :=
  [ (lit "status", JStr (lit "healthy"));
    (lit "message", JStr (lit "Background Remover API is running"));
    (lit "version", JStr (lit "1.0.0")) ].

End Router.
End remove_bg.

(** ** app/main.py *)

Module main.

(** [GET /] *)
Definition root (settings : Settings) : list (str * Json) :=
  [ (lit "message", JStr (lit "Welcome to Background Remover API"));
    (lit "version", JStr (API_VERSION settings));
    (lit "docs", JStr (lit "/docs"));
    (lit "health", JStr (lit "/api/health"));
    (lit "endpoints",
      JObj [ (lit "remove_background", lit "POST /api/remove-bg") ]) ].

End main.

(** ** Notions the properties are stated with *)

(** The extension in the words of the specification: the substring from
    the last ['.'] to the end, lower-cased; empty when there is no ['.']. *)
Definition spec_extension (name : str) : str :=
  let k := rfind dot name in
  if k <? 0 then [] else lower (skipn (Z.to_nat k) name).

(** The three kinds of reason [validate_image] gives. *)
Definition size_related (reason : str) : bool :=
  startswith (lit "File too large") reason.

Definition extension_related (reason : str) : bool :=
  startswith (lit "Invalid file type") reason.

Definition decode_related (reason : str) : bool :=
  startswith (lit "Invalid or corrupted image file") reason.

(** The last character of a string, as a string. *)
Definition last_char (s : str) : str :=
  match rev s with
  | [] => []
  | c :: _ => [c]
  end.

(** The events of the processing stages (Normalizer, Segmentation,
    Encoder), as opposed to those of validation. *)
Definition processing_event (ev : Event) : bool :=
  match ev with
  | EvEnter remove_background_method => true
  | EvResize _ _ | EvRemove _ | EvSave _ => true
  | EvEnter validate_image_method | EvOpen _ | EvVerify _ => false
  end.

(** Pillow's contract for [resize]: the result has the size asked for. *)
Definition resize_gives_size (imaging : Imaging) : Prop :=
  forall im size im',
    Image_resize im size = inr im' ->
    width im' = fst size /\ height im' = snd size.

(** The ways [bg_service.remove_background] can fail, stage by stage, with
    the description of the failure. *)
Inductive processing_fails {imaging : Imaging} (settings : Settings)
  (image_bytes : bytes) : str -> Prop :=
| decode_fails msg :
    Image_open image_bytes = inl msg ->
    processing_fails settings image_bytes msg
| resize_fails im msg :
    Image_open image_bytes = inr im ->
    outcome (bg_service.resize_if_too_wide settings im) = inl (Exception msg) ->
    processing_fails settings image_bytes msg
| segmentation_fails im im1 msg :
    Image_open image_bytes = inr im ->
    outcome (bg_service.resize_if_too_wide settings im) = inr im1 ->
    rembg_remove im1 = inl msg ->
    processing_fails settings image_bytes msg
| encode_fails im im1 im2 msg :
    Image_open image_bytes = inr im ->
    outcome (bg_service.resize_if_too_wide settings im) = inr im1 ->
    rembg_remove im1 = inr im2 ->
    Image_save_png im2 = inl msg ->
    processing_fails settings image_bytes msg.

(** ** A small imaging back end, for concrete runs

    A toy container: two bytes of width, two bytes of height (big endian),
    then the raster. Opening needs the four header bytes, verification a
    non-empty raster, resizing a positive size; segmentation returns its
    input and saving writes the container back. *)

Definition byte_val (b : Byte.byte) : Z := Z.of_N (Byte.to_N b).

Definition byte_of (n : Z) : Byte.byte :=
  match Byte.of_N (Z.to_N (n mod 256)) with
  | Some b => b
  | None => Byte.x00
  end.

Definition toy_open (data : bytes) : str + Image :=
  match data with
  | w1 :: w0 :: h1 :: h0 :: rest =>
      inr {| width := 256 * byte_val w1 + byte_val w0;
             height := 256 * byte_val h1 + byte_val h0;
             raster := rest |}
  | _ => inl (lit "cannot identify image file")
  end.

Definition toy_verify (im : Image) : str + unit :=
  match raster im with
  | [] => inl (lit "Truncated File Read")
  | _ :: _ => inr tt
  end.

Definition toy_resize (im : Image) (size : Z * Z) : str + Image :=
  if (fst size <? 1) || (snd size <? 1)
  then inl (lit "height and width must be > 0")
  else inr {| width := fst size; height := snd size; raster := raster im |}.

Definition toy_save (im : Image) : str + bytes :=
  inr (byte_of (width im / 256) :: byte_of (width im)
       :: byte_of (height im / 256) :: byte_of (height im) :: raster im).

Definition toy_imaging : Imaging :=
  {| Image_open := toy_open;
     Image_verify := toy_verify;
     Image_resize := toy_resize;
     rembg_remove := fun im => inr im;
     Image_save_png := toy_save |}.

(** The iteration order used in concrete runs. *)
Definition some_order : list str := [lit ".png"; lit ".jpg"; lit ".jpeg"].

(** A 2000 x 1000 upload, a 2000 x 1 upload and an 800 x 600 upload in the
    toy container, each with a one-byte raster. *)
Definition wide_upload : bytes :=
  [Byte.x07; Byte.xd0; Byte.x03; Byte.xe8; Byte.xff].

Definition flat_upload : bytes :=
  [Byte.x07; Byte.xd0; Byte.x00; Byte.x01; Byte.xff].

Definition small_upload : bytes :=
  [Byte.x03; Byte.x20; Byte.x02; Byte.x58; Byte.xff].

(** The file name [İ.png]: U+0130, then [.png]. *)
Definition dotted_capital_I_png : str := 304%N :: lit ".png".

(** The requests and images of the concrete runs. *)
Definition gif_request : UploadFile := mkUploadFile (lit "anim.gif") small_upload.

Definition photo_request : UploadFile := mkUploadFile (lit "photo") small_upload.

Definition cat_request : UploadFile := mkUploadFile (lit "cat.PNG") small_upload.

Definition flat_request : UploadFile := mkUploadFile (lit "line.png") flat_upload.

Definition wide_request : UploadFile :=
  mkUploadFile (lit "photo.final.JPG") wide_upload.

Definition six_megabytes : bytes := repeat Byte.x00 (6 * 1024 * 1024)%nat.

Definition wide_image : Image := mkImage 2000 1000 [Byte.xff].

Definition narrow_image : Image := mkImage 800 600 [Byte.xff].


(** ** Notions for the properties of traces and messages *)

Definition is_open_event (ev : Event) : bool :=
  match ev with
  | EvOpen _ => true
  | _ => false
  end.

(** The place of a call in the processing pipeline. *)
Definition stage_rank (ev : Event) : Z :=
  match ev with
  | EvEnter _ => 0
  | EvOpen _ => 1
  | EvVerify _ => 2
  | EvResize _ _ => 3
  | EvRemove _ => 4
  | EvSave _ => 5
  end.

Fixpoint strictly_increasing (l : list Z) : bool :=
  match l with
  | [] => true
  | x :: r =>
      match r with
      | [] => true
      | y :: _ => (x <? y) && strictly_increasing r
      end
  end.

(** [p] holds on [count] consecutive integers from [lo]. *)
Fixpoint all_from (p : Z -> bool) (lo : Z) (count : nat) : bool :=
  match count with
  | O => true
  | S k => p lo && all_from p (lo + 1) k
  end.

(** A byte count is printed as [text] by [f"{n / (1024 * 1024):.2f}"]. *)
Definition size_prints_as (text : str) (n : Z) : bool :=
  if str_eq_dec (PyFloat.format_2f (PyFloat.truediv n (1024 * 1024))) text
  then true else false.

(** One byte more than five megabytes. *)
Definition barely_too_large : bytes :=
  repeat Byte.x00 (5 * 1024 * 1024 + 1)%nat.

(** The file name [фото.png]: four Cyrillic letters, then [.png]. *)
Definition cyrillic_photo_png : str := [1092; 1086; 1090; 1086]%N ++ lit ".png".

Definition cyrillic_request : UploadFile :=
  mkUploadFile cyrillic_photo_png wide_upload.

Definition dotted_I_request : UploadFile :=
  mkUploadFile dotted_capital_I_png small_upload.


(** ** The routes the source declares *)

Inductive HttpMethod := GET | POST.

Inductive Handler :=
| remove_background_handler
| health_check_handler
| root_handler.

Record Route := mkRoute {
  route_method : HttpMethod;
  route_path : str;
  route_handler : Handler
}.

(** [APIRouter(prefix=...)] and the handlers decorated on it, with the
    paths as written in the decorators. *)
Record APIRouter := mkAPIRouter {
  prefix : str;
  routes : list Route
}.

(** [router] of [app/routers/remove_bg.py]: [@router.post("/remove-bg")]
    and [@router.get("/health")] under [prefix="/api"]. *)
Definition router : APIRouter :=
  {| prefix := lit "/api";
     routes := [ mkRoute POST (lit "/remove-bg") remove_background_handler;
                 mkRoute GET (lit "/health") health_check_handler ] |}.

(** [app.include_router(r)]: the router's routes, each under the prefix. *)
Definition include_router (app_routes : list Route) (r : APIRouter)
  : list Route :=
  app_routes
    ++ map (fun rt => mkRoute (route_method rt) (prefix r ++ route_path rt)
                        (route_handler rt))
         (routes r).

(** The routes of [app] in [app/main.py], in the order they are added:
    the router, then [@app.get("/")]. *)
Definition app_routes : list Route :=
  include_router [] router ++ [mkRoute GET (lit "/") root_handler].

Definition method_name (m : HttpMethod) : str :=
  match m with
  | GET => lit "GET"
  | POST => lit "POST"
  end.

Definition method_eqb (a b : HttpMethod) : bool :=
  match a, b with
  | GET, GET | POST, POST => true
  | _, _ => false
  end.

(** The handler of the first route with this method and this path. *)
Fixpoint find_route (m : HttpMethod) (path : str) (rs : list Route)
  : option Handler :=
  match rs with
  | [] => None
  | rt :: rest =>
      if method_eqb (route_method rt) m
      then if str_eq_dec (route_path rt) path
           then Some (route_handler rt)
           else find_route m path rest
      else find_route m path rest
  end.

(** * Properties *)

(** ** The Python primitives on concrete inputs *)

Example lower_dotted_I : lower [304; 46; 112; 110; 103]%N = [105; 775; 46; 112; 110; 103]%N.
Proof. reflexivity. Qed.

Example str_of_int_neg : str_of_int (-12) = lit "-12".
Proof. reflexivity. Qed.

Example rsplit_two_dots : rsplit1 dot (lit "a.b.png") = [lit "a.b"; lit "png"].
Proof. reflexivity. Qed.

Example forty_nine_times_its_inverse :
  PyFloat.to_int (PyFloat.mul_int 49 (PyFloat.truediv 1 49)) = inr 0.
Proof. reflexivity. Qed.

Example format_tie_to_even :
  PyFloat.format_2f (PyFloat.truediv 131072 (1024 * 1024)) = lit "0.12".
Proof. reflexivity. Qed.

Example format_five_mb_and_an_eighth :
  PyFloat.format_2f (PyFloat.truediv 5373952 (1024 * 1024)) = lit "5.12".
Proof. reflexivity. Qed.

Example str_of_int_zero : str_of_int 0 = lit "0".
Proof. reflexivity. Qed.

Example str_of_int_port : str_of_int 8000 = lit "8000".
Proof. reflexivity. Qed.

Lemma two_digits_are_digits d :
  0 <= d < 100 ->
  exists d1 d2, PyFloat.two_digits d = [d1; d2]
                /\ (48 <= d1 <= 57)%N /\ (48 <= d2 <= 57)%N.
Proof.
  intros Hd. unfold PyFloat.two_digits. do 2 eexists. split; [reflexivity|].
  assert (0 <= d / 10 < 10) by (split; [apply Z.div_pos|apply Z.div_lt_upper_bound]; lia).
  assert (0 <= d mod 10 < 10) by (apply Z.mod_pos_bound; lia).
  lia.
Qed.

(** A finite value is printed by [.2f] as a sign, an integer part, a ['.']
    and exactly two digits. *)
Lemma format_2f_shape x s m e :
  Prim2SF x = S754_finite s m e ->
  exists ip d1 d2,
    PyFloat.format_2f x
    = (if s then lit "-" else []) ++ str_of_int ip ++ [dot; d1; d2]
    /\ 0 <= ip /\ (48 <= d1 <= 57)%N /\ (48 <= d2 <= 57)%N.
Proof.
  intros Hx. unfold PyFloat.format_2f. rewrite Hx.
  set (num := Z.pos m * 100 * 2 ^ Z.max e 0).
  set (den := 2 ^ Z.max (- e) 0).
  assert (Hnum : 0 <= num) by (subst num; apply Z.mul_nonneg_nonneg; [lia|apply Z.pow_nonneg; lia]).
  assert (Hden : 0 < den) by (subst den; apply Z.pow_pos_nonneg; lia).
  assert (Hq : 0 <= num / den) by (apply Z.div_pos; lia).
  set (h := if den <? 2 * (num mod den) then num / den + 1
            else if (2 * (num mod den) =? den) && Z.odd (num / den)
                 then num / den + 1 else num / den).
  assert (Hh : 0 <= h).
  { subst h. destruct (den <? 2 * (num mod den)); [lia|].
    destruct ((2 * (num mod den) =? den) && Z.odd (num / den)); lia. }
  destruct (two_digits_are_digits (h mod 100)) as (d1 & d2 & -> & H1 & H2).
  { apply Z.mod_pos_bound. lia. }
  exists (h / 100), d1, d2. repeat split; try lia; try (apply Z.div_pos; lia).
Qed.

(** ** The two GET handlers *)

(** C10: the health endpoint returns one constant payload, with status
    "healthy" and version the literal "1.0.0", whatever the settings are;
    the root endpoint reports the configured [API_VERSION], so the two
    version fields differ under some configuration. *)
Theorem health_version_is_hard_coded :
  dict_get (lit "status") remove_bg.health_check = Some (JStr (lit "healthy"))
  /\ dict_get (lit "version") remove_bg.health_check = Some (JStr (lit "1.0.0"))
  /\ (forall s : Settings,
        dict_get (lit "version") (main.root s) = Some (JStr (API_VERSION s)))
  /\ (exists s : Settings,
        dict_get (lit "version") (main.root s)
        <> dict_get (lit "version") remove_bg.health_check).
Proof.
  repeat split.
  exists {| HOST := HOST default_settings; PORT := PORT default_settings;
            MAX_FILE_SIZE_MB := 5; MAX_IMAGE_WIDTH := 1024;
            API_TITLE := API_TITLE default_settings;
            API_VERSION := lit "2.0.0" |}.
  discriminate.
Qed.

(** ** Strings: [rfind], slices and [lower] *)

Lemma len_cons {A} (x : A) (s : list A) : len (x :: s) = len s + 1.
Proof. unfold len. simpl List.length. lia. Qed.

Lemma len_app {A} (a b : list A) : len (a ++ b) = len a + len b.
Proof. unfold len. rewrite length_app. lia. Qed.

Lemma len_nonneg {A} (s : list A) : 0 <= len s.
Proof. unfold len. lia. Qed.

Lemma rfind_range c s : -1 <= rfind c s < len s.
Proof.
  induction s as [|x r IH].
  - cbn. lia.
  - rewrite len_cons. simpl rfind.
    destruct (0 <=? rfind c r) eqn:E.
    + apply Z.leb_le in E. lia.
    + destruct (x =? c)%N; pose proof (len_nonneg r); lia.
Qed.

Lemma rfind_present c s : In c s -> 0 <= rfind c s.
Proof.
  induction s as [|x r IH]; simpl; [tauto|].
  intros [->|Hin].
  - destruct (0 <=? rfind c r) eqn:E.
    + apply Z.leb_le in E. lia.
    + rewrite N.eqb_refl. lia.
  - specialize (IH Hin). apply Z.leb_le in IH. rewrite IH.
    apply Z.leb_le in IH. lia.
Qed.

Lemma rfind_absent c s : ~ In c s -> rfind c s = -1.
Proof.
  induction s as [|x r IH]; simpl; [reflexivity|].
  intros Hn. rewrite IH by tauto. simpl.
  destruct (x =? c)%N eqn:E; [|reflexivity].
  apply N.eqb_eq in E. tauto.
Qed.

(** A hit of [rfind] splits the string at its last occurrence. *)
Lemma rfind_split c s :
  0 <= rfind c s ->
  exists a b, s = a ++ c :: b /\ ~ In c b /\ len a = rfind c s.
Proof.
  induction s as [|x r IH]; simpl.
  - lia.
  - destruct (0 <=? rfind c r) eqn:E.
    + apply Z.leb_le in E. intros _.
      destruct (IH E) as (a & b & -> & Hb & Hlen).
      exists (x :: a), b. rewrite len_cons. repeat split; auto. lia.
    + apply Z.leb_gt in E.
      destruct (x =? c)%N eqn:Ex; [|lia].
      apply N.eqb_eq in Ex. subst x. intros _.
      exists [], r. repeat split; auto.
      intros Hin. apply rfind_present in Hin. lia.
Qed.

Lemma rfind_app_last c a b :
  ~ In c b -> rfind c (a ++ c :: b) = len a.
Proof.
  intros Hb. induction a as [|x a IH]; simpl.
  - rewrite rfind_absent by assumption. simpl. rewrite N.eqb_refl. reflexivity.
  - rewrite IH, len_cons.
    pose proof (len_nonneg a) as Hl. apply Z.leb_le in Hl. rewrite Hl. reflexivity.
Qed.

Lemma skipn_len_app {A} (a b : list A) : skipn (Z.to_nat (len a)) (a ++ b) = b.
Proof.
  unfold len. rewrite Nat2Z.id, skipn_app, skipn_all, Nat.sub_diag. reflexivity.
Qed.

Lemma firstn_len_app {A} (a b : list A) : firstn (Z.to_nat (len a)) (a ++ b) = a.
Proof.
  unfold len. rewrite Nat2Z.id, firstn_app, firstn_all, Nat.sub_diag.
  simpl. apply app_nil_r.
Qed.

(** [s[-1:]] is the last character, or the empty string. *)
Lemma slice_from_minus_one (s : str) : slice_from s (-1) = last_char s.
Proof.
  unfold slice_from, last_char. simpl (-1 <? 0).  cbv iota.
  destruct (rev s) as [|c t] eqn:E.
  - apply (f_equal (@rev _)) in E. rewrite rev_involutive in E. subst s. reflexivity.
  - apply (f_equal (@rev _)) in E. rewrite rev_involutive in E. simpl in E. subst s.
    rewrite len_app. change (len [c]) with 1.
    pose proof (len_nonneg (rev t)).
    replace (Z.max 0 (-1 + (len (rev t) + 1))) with (len (rev t)) by lia.
    apply skipn_len_app.
Qed.

Lemma last_char_length (s : str) : (List.length (last_char s) <= 1)%nat.
Proof. unfold last_char. destruct (rev s); simpl; lia. Qed.

Lemma lower_app a b : lower (a ++ b) = lower a ++ lower b.
Proof. apply flat_map_app. Qed.

Lemma lower_cp_nonempty c : lower_cp c <> [].
Proof.
  unfold lower_cp.
  repeat match goal with |- context [if ?b then _ else _] => destruct b end;
    discriminate.
Qed.

(** Lower-casing never shortens a string. *)
Lemma lower_length s : (List.length s <= List.length (lower s))%nat.
Proof.
  induction s as [|c s IH]; simpl; [lia|].
  rewrite length_app. pose proof (lower_cp_nonempty c).
  destruct (lower_cp c); [congruence|simpl; lia].
Qed.

(** Apart from U+0130, a code point has a one-code-point lower case. *)
Lemma lower_cp_single c : c <> 304%N -> exists d, lower_cp c = [d].
Proof.
  intros Hc. unfold lower_cp.
  destruct ((65 <=? c)%N && (c <=? 90)%N); [eauto|].
  destruct ((192 <=? c)%N && (c <=? 222)%N && negb (c =? 215)%N); [eauto|].
  destruct (c =? 304)%N eqn:E; [apply N.eqb_eq in E; congruence|].
  destruct (c =? 8490)%N; [eauto|].
  destruct (c =? 8491)%N; eauto.
Qed.

Lemma lower_length_aligned s :
  ~ In 304%N s -> List.length (lower s) = List.length s.
Proof.
  induction s as [|c s IH]; simpl; [reflexivity|].
  intros Hn. rewrite length_app, IH by tauto.
  destruct (lower_cp_single c) as [d ->]; [intros ->; tauto|reflexivity].
Qed.


Lemma lower_cp_of_dot : lower_cp dot = [dot].
Proof. reflexivity. Qed.

(** ** The extension that [validate_image] computes *)

Lemma allowed_shape e :
  In e ALLOWED_EXTENSIONS -> exists e', e = dot :: e' /\ ~ In dot e'.
Proof.
  unfold ALLOWED_EXTENSIONS.
  intros [<-|[<-|[<-|[]]]]; eexists; (split; [reflexivity|]);
    cbn; unfold dot; intuition discriminate.
Qed.

Lemma allowed_long e : In e ALLOWED_EXTENSIONS -> (4 <= List.length e)%nat.
Proof.
  unfold ALLOWED_EXTENSIONS. intros [<-|[<-|[<-|[]]]]; cbn; lia.
Qed.

(** Without a ['.'], [rfind] gives [-1] and the slice keeps the last
    character of the lower-cased name. *)
Lemma file_extension_no_dot name :
  ~ In dot name -> bg_service.file_extension name = last_char (lower name).
Proof.
  intros Hn. unfold bg_service.file_extension.
  rewrite rfind_absent by assumption. apply slice_from_minus_one.
Qed.

Lemma file_extension_no_dot_not_allowed name :
  ~ In dot name -> ~ In (bg_service.file_extension name) ALLOWED_EXTENSIONS.
Proof.
  intros Hn Hin. rewrite file_extension_no_dot in Hin by assumption.
  apply allowed_long in Hin. pose proof (last_char_length (lower name)). lia.
Qed.

(** With a ['.'], the slice starts in the lower-cased name at the index the
    ['.'] has in the original name. *)
Lemma file_extension_dotted a b :
  ~ In dot b ->
  bg_service.file_extension (a ++ dot :: b)
  = skipn (List.length a) (lower a) ++ dot :: lower b.
Proof.
  intros Hb. unfold bg_service.file_extension, slice_from.
  rewrite rfind_app_last by assumption.
  pose proof (len_nonneg a) as Ha.
  destruct (len a <? 0) eqn:E; [apply Z.ltb_lt in E; lia|].
  rewrite lower_app. change (lower (dot :: b)) with (dot :: lower b).
  pose proof (lower_length a) as Hla.
  assert (Hmin : Z.min (len a) (len (lower a ++ dot :: lower b)) = len a).
  { rewrite len_app. unfold len in *. pose proof (len_nonneg (dot :: lower b)).
    unfold len in *. lia. }
  rewrite Hmin. unfold len. rewrite Nat2Z.id, skipn_app.
  replace (List.length a - List.length (lower a))%nat with 0%nat by lia.
  reflexivity.
Qed.

Lemma spec_extension_dotted a b :
  ~ In dot b -> spec_extension (a ++ dot :: b) = dot :: lower b.
Proof.
  intros Hb. unfold spec_extension. rewrite rfind_app_last by assumption.
  pose proof (len_nonneg a) as Ha.
  destruct (len a <? 0) eqn:E; [apply Z.ltb_lt in E; lia|].
  rewrite skipn_len_app. reflexivity.
Qed.

Lemma spec_extension_no_dot name : ~ In dot name -> spec_extension name = [].
Proof.
  intros Hn. unfold spec_extension. rewrite rfind_absent by assumption.
  reflexivity.
Qed.


(** An accepted extension is the specification's extension: the name has a
    ['.'] and the slice fell exactly on it. *)
Lemma allowed_extension_is_spec name :
  In (bg_service.file_extension name) ALLOWED_EXTENSIONS ->
  In dot name /\ bg_service.file_extension name = spec_extension name.
Proof.
  intros Hin.
  destruct (in_dec N.eq_dec dot name) as [Hd|Hd];
    [|exfalso; eapply file_extension_no_dot_not_allowed; eauto].
  split; [assumption|].
  destruct (rfind_split dot name (rfind_present _ _ Hd)) as (a & b & -> & Hb & _).
  rewrite spec_extension_dotted by assumption.
  rewrite file_extension_dotted in * by assumption.
  destruct (skipn (List.length a) (lower a)) as [|x t]; [reflexivity|].
  exfalso. destruct (allowed_shape _ Hin) as (e' & He & Hno).
  simpl in He. injection He as _ He. apply Hno. rewrite <- He.
  apply in_or_app. right. left. reflexivity.
Qed.

(** When lower-casing keeps the length of the name (no U+0130), the two
    extensions agree on every dotted name. *)
Lemma file_extension_aligned name :
  ~ In 304%N name -> In dot name ->
  bg_service.file_extension name = spec_extension name.
Proof.
  intros H304 Hd.
  destruct (rfind_split dot name (rfind_present _ _ Hd)) as (a & b & -> & Hb & _).
  rewrite spec_extension_dotted, file_extension_dotted by assumption.
  assert (Hlen : List.length (lower a) = List.length a).
  { apply lower_length_aligned. intros Hin. apply H304. apply in_or_app. auto. }
  rewrite <- Hlen, skipn_all. reflexivity.
Qed.

(** ** [validate_image] *)

Lemma startswith_app p r : startswith p (p ++ r) = true.
Proof.
  induction p as [|c p IH]; simpl; [reflexivity|].
  rewrite N.eqb_refl. assumption.
Qed.

Lemma contains_app_r p a s : contains p s = true -> contains p (a ++ s) = true.
Proof.
  intros H. induction a as [|c a IH]; simpl; [assumption|].
  rewrite IH. apply orb_true_r.
Qed.

Lemma contains_here p r : contains p (p ++ r) = true.
Proof.
  destruct p as [|c p]; [destruct r; reflexivity|].
  simpl. rewrite N.eqb_refl, startswith_app. reflexivity.
Qed.

Lemma join_contains sep e l : In e l -> contains e (join sep l) = true.
Proof.
  induction l as [|x r IH]; simpl; [tauto|].
  intros [->|Hin].
  - destruct r.
    + rewrite <- (app_nil_r e) at 2. apply contains_here.
    + apply contains_here.
  - destruct r as [|y r']; [destruct Hin|].
    apply contains_app_r, contains_app_r, IH, Hin.
Qed.

Section Validation.

Context {imaging : Imaging}.
Variable settings : Settings.
Variable allowed_iter : list str.


(** The three ways through [validate_image]. *)
Lemma validate_too_large image_bytes name :
  len image_bytes > MAX_FILE_SIZE_BYTES settings ->
  bg_service.validate_image settings allowed_iter image_bytes name
  = ([EvEnter validate_image_method], inr (false, bg_service.size_reason settings image_bytes)).
Proof.
  intros H. unfold bg_service.validate_image.
  destruct (len image_bytes >? MAX_FILE_SIZE_BYTES settings) eqn:E.
  - reflexivity.
  - rewrite Z.gtb_ltb in E. apply Z.ltb_ge in E. lia.
Qed.

Lemma validate_bad_extension image_bytes name :
  len image_bytes <= MAX_FILE_SIZE_BYTES settings ->
  ~ In (bg_service.file_extension name) ALLOWED_EXTENSIONS ->
  bg_service.validate_image settings allowed_iter image_bytes name
  = ([EvEnter validate_image_method], inr (false, (bg_service.extension_reason allowed_iter))).
Proof.
  intros H Hext. unfold bg_service.validate_image.
  destruct (len image_bytes >? MAX_FILE_SIZE_BYTES settings) eqn:E.
  - rewrite Z.gtb_ltb in E. apply Z.ltb_lt in E. lia.
  - destruct (in_dec str_eq_dec (bg_service.file_extension name) ALLOWED_EXTENSIONS);
      [contradiction|reflexivity].
Qed.

Lemma validate_decodes image_bytes name :
  len image_bytes <= MAX_FILE_SIZE_BYTES settings ->
  In (bg_service.file_extension name) ALLOWED_EXTENSIONS ->
  bg_service.validate_image settings allowed_iter image_bytes name
  = match Image_open image_bytes with
    | inl msg =>
        ([EvEnter validate_image_method; EvOpen image_bytes],
         inr (false, lit "Invalid or corrupted image file: " ++ msg))
    | inr im =>
        ([EvEnter validate_image_method; EvOpen image_bytes; EvVerify im],
         match Image_verify im with
         | inl msg => inr (false, lit "Invalid or corrupted image file: " ++ msg)
         | inr _ => inr (true, [])
         end)
    end.
Proof.
  intros H Hext. unfold bg_service.validate_image.
  destruct (len image_bytes >? MAX_FILE_SIZE_BYTES settings) eqn:E.
  - rewrite Z.gtb_ltb in E. apply Z.ltb_lt in E. lia.
  - destruct (in_dec str_eq_dec (bg_service.file_extension name) ALLOWED_EXTENSIONS);
      [|contradiction].
    destruct (Image_open image_bytes) as [msg|im]; [reflexivity|].
    cbn. destruct (Image_verify im) as [msg|[]]; reflexivity.
Qed.

(** [validate_image] returns; it raises nothing. *)
Lemma validate_returns image_bytes name :
  exists v, outcome (bg_service.validate_image settings allowed_iter image_bytes name) = inr v.
Proof.
  destruct (Z_gt_le_dec (len image_bytes) (MAX_FILE_SIZE_BYTES settings)) as [H|H].
  - rewrite validate_too_large by assumption. cbn. eauto.
  - destruct (in_dec str_eq_dec (bg_service.file_extension name) ALLOWED_EXTENSIONS)
      as [He|He].
    + rewrite validate_decodes by assumption.
      destruct (Image_open image_bytes) as [msg|im]; cbn; eauto.
      destruct (Image_verify im) as [msg|[]]; cbn; eauto.
    + rewrite validate_bad_extension by assumption. cbn. eauto.
Qed.

(** Validation calls no processing stage. *)
Lemma validate_trace image_bytes name :
  forallb (fun ev => negb (processing_event ev))
    (trace (bg_service.validate_image settings allowed_iter image_bytes name)) = true.
Proof.
  destruct (Z_gt_le_dec (len image_bytes) (MAX_FILE_SIZE_BYTES settings)) as [H|H].
  - rewrite validate_too_large by assumption. reflexivity.
  - destruct (in_dec str_eq_dec (bg_service.file_extension name) ALLOWED_EXTENSIONS)
      as [He|He].
    + rewrite validate_decodes by assumption.
      destruct (Image_open image_bytes) as [msg|im]; reflexivity.
    + rewrite validate_bad_extension by assumption. reflexivity.
Qed.


(** Invalid with an extension-related reason: exactly when the extension
    the code computed is not an allowed one. *)
Lemma validate_extension_check_code image_bytes name :
  len image_bytes <= MAX_FILE_SIZE_BYTES settings ->
  ((exists reason,
      outcome (bg_service.validate_image settings allowed_iter image_bytes name)
      = inr (false, reason)
      /\ extension_related reason = true)
   <-> ~ In (bg_service.file_extension name) ALLOWED_EXTENSIONS).
Proof.
  intros H. split.
  - intros (reason & Hout & Hrel) He.
    rewrite validate_decodes in Hout by assumption.
    destruct (Image_open image_bytes) as [msg|im]; cbn in Hout.
    + injection Hout as <-. discriminate Hrel.
    + destruct (Image_verify im) as [msg|[]]; [|discriminate].
      injection Hout as <-. discriminate Hrel.
  - intros He. exists (bg_service.extension_reason allowed_iter).
    rewrite validate_bad_extension by assumption. split; reflexivity.
Qed.

(** The same with the specification's extension, for the names whose
    lower-casing keeps their length. *)
Lemma validate_extension_check_aligned image_bytes name :
  len image_bytes <= MAX_FILE_SIZE_BYTES settings ->
  ~ In 304%N name ->
  ((exists reason,
      outcome (bg_service.validate_image settings allowed_iter image_bytes name)
      = inr (false, reason)
      /\ extension_related reason = true)
   <-> ~ In (spec_extension name) ALLOWED_EXTENSIONS).
Proof.
  intros H H304. rewrite validate_extension_check_code by assumption.
  destruct (in_dec N.eq_dec dot name) as [Hd|Hd].
  - rewrite file_extension_aligned by assumption. tauto.
  - split; intros _.
    + rewrite spec_extension_no_dot by assumption.
      intros Hin. apply allowed_long in Hin. simpl in Hin. lia.
    + apply file_extension_no_dot_not_allowed. assumption.
Qed.

(** The extension-related reason names every allowed extension, in
    whatever order the set is iterated. *)
Lemma extension_reason_lists_allowed e :
  Permutation allowed_iter ALLOWED_EXTENSIONS ->
  In e ALLOWED_EXTENSIONS ->
  contains e (bg_service.extension_reason allowed_iter) = true.
Proof.
  intros Hperm Hin. unfold bg_service.extension_reason.
  apply contains_app_r, join_contains.
  eapply Permutation_in; [apply Permutation_sym; eassumption|assumption].
Qed.

(** C4, as the code has it: for a file name without ['.'] (of an upload
    within the size limit) the computed extension is the last character of
    the lower-cased name, empty only for the empty name; it is never an
    allowed extension, so [validate_image] returns Invalid with the
    extension-related reason, having raised nothing. *)
Theorem no_dot_filename_rejected image_bytes name :
  ~ In dot name ->
  len image_bytes <= MAX_FILE_SIZE_BYTES settings ->
  bg_service.file_extension name = last_char (lower name)
  /\ (bg_service.file_extension name = [] <-> name = [])
  /\ bg_service.validate_image settings allowed_iter image_bytes name
     = ([EvEnter validate_image_method],
        inr (false, bg_service.extension_reason allowed_iter))
  /\ extension_related (bg_service.extension_reason allowed_iter) = true.
Proof.
  intros Hd H. split; [apply file_extension_no_dot; assumption|].
  split; [|split; [|reflexivity]].
  - rewrite file_extension_no_dot by assumption. unfold last_char. split.
    + destruct (rev (lower name)) eqn:E; [|discriminate]. intros _.
      apply (f_equal (@List.length _)) in E. rewrite length_rev in E.
      pose proof (lower_length name). destruct name; [reflexivity|simpl in *; lia].
    + intros ->. reflexivity.
  - apply validate_bad_extension; [assumption|].
    apply file_extension_no_dot_not_allowed. assumption.
Qed.

(** What a valid result tells: all three checks passed, and the reason is
    empty. *)
Lemma validate_true_inv image_bytes name reason :
  outcome (bg_service.validate_image settings allowed_iter image_bytes name)
  = inr (true, reason) ->
  reason = []
  /\ len image_bytes <= MAX_FILE_SIZE_BYTES settings
  /\ In (bg_service.file_extension name) ALLOWED_EXTENSIONS
  /\ exists im, Image_open image_bytes = inr im /\ Image_verify im = inr tt.
Proof.
  intros Hout.
  destruct (Z_gt_le_dec (len image_bytes) (MAX_FILE_SIZE_BYTES settings))
    as [H|H].
  { rewrite validate_too_large in Hout by assumption. discriminate. }
  destruct (in_dec str_eq_dec (bg_service.file_extension name)
              ALLOWED_EXTENSIONS) as [He|He].
  2:{ rewrite validate_bad_extension in Hout by assumption. discriminate. }
  rewrite validate_decodes in Hout by assumption.
  destruct (Image_open image_bytes) as [msg|im]; [discriminate|].
  cbn in Hout. destruct (Image_verify im) as [msg|[]] eqn:Ev; [discriminate|].
  injection Hout as <-. eauto 6.
Qed.

(** X15: [validate_image] returns [True] with the empty reason exactly
    when the byte length is within [MAX_FILE_SIZE_BYTES], the extension it
    computed (the slice of the lower-cased name) is allowed, and the bytes
    open and verify as an image; a valid result has the empty reason and a
    name whose lower-cased last-dot suffix is allowed; when opening or
    verifying fails the reason ends with the description of that failure. *)
Theorem validate_valid_iff image_bytes name :
  (outcome (bg_service.validate_image settings allowed_iter image_bytes name)
   = inr (true, [])
   <-> len image_bytes <= MAX_FILE_SIZE_BYTES settings
       /\ In (bg_service.file_extension name) ALLOWED_EXTENSIONS
       /\ exists im, Image_open image_bytes = inr im /\ Image_verify im = inr tt)
  /\ (forall reason,
        outcome (bg_service.validate_image settings allowed_iter image_bytes name)
        = inr (true, reason) ->
        reason = [] /\ In (spec_extension name) ALLOWED_EXTENSIONS)
  /\ (forall msg,
        len image_bytes <= MAX_FILE_SIZE_BYTES settings ->
        In (bg_service.file_extension name) ALLOWED_EXTENSIONS ->
        Image_open image_bytes = inl msg
        \/ (exists im, Image_open image_bytes = inr im
                       /\ Image_verify im = inl msg) ->
        outcome (bg_service.validate_image settings allowed_iter image_bytes name)
        = inr (false, lit "Invalid or corrupted image file: " ++ msg)).
Proof.
  split; [split|split].
  - intros Hout. apply validate_true_inv in Hout. tauto.
  - intros (H & He & im & Ho & Hv).
    rewrite validate_decodes by assumption. rewrite Ho. cbn. rewrite Hv.
    reflexivity.
  - intros reason Hout.
    apply validate_true_inv in Hout as (Hr & _ & He & _).
    split; [assumption|].
    destruct (allowed_extension_is_spec _ He) as [_ <-]. assumption.
  - intros msg H He Hfail. rewrite validate_decodes by assumption.
    destruct Hfail as [Ho|(im & Ho & Hv)]; rewrite Ho; cbn; [|rewrite Hv];
      reflexivity.
Qed.

End Validation.

(** ** Step 2 of [remove_background]: the resize *)

Section Normalizer.

Context {imaging : Imaging}.
Variable settings : Settings.

(** C6: an image no wider than [MAX_IMAGE_WIDTH] passes through unchanged,
    with the same width and height, and no resize is called. *)
Theorem narrow_image_unchanged im :
  width im <= MAX_IMAGE_WIDTH settings ->
  bg_service.resize_if_too_wide settings im = ([], inr im)
  /\ forall im',
       outcome (bg_service.resize_if_too_wide settings im) = inr im' ->
       im' = im /\ width im' = width im /\ height im' = height im.
Proof.
  intros H. unfold bg_service.resize_if_too_wide.
  destruct (width im >? MAX_IMAGE_WIDTH settings) eqn:E.
  - rewrite Z.gtb_ltb in E. apply Z.ltb_lt in E. lia.
  - split; [reflexivity|]. cbn. intros im' [= <-]. auto.
Qed.


(** The resize step raises nothing but plain exceptions. *)
Lemma resize_raises_exception im e :
  outcome (bg_service.resize_if_too_wide settings im) = inl e ->
  exists msg, e = Exception msg.
Proof.
  unfold bg_service.resize_if_too_wide, bg_service.new_height.
  destruct (width im >? MAX_IMAGE_WIDTH settings); [|discriminate].
  destruct (width im =? 0); [cbn; intros [= <-]; eauto|].
  destruct (PyFloat.to_int _) as [msg|h]; cbn; [intros [= <-]; eauto|].
  destruct (Image_resize _ _) as [msg|im']; [intros [= <-]; eauto|discriminate].
Qed.


End Normalizer.

(** ** [bg_service.remove_background] *)

Section Processing.

Context {imaging : Imaging}.
Variable settings : Settings.

(** The outcome of the processing, stage by stage. *)
Lemma remove_background_outcome image_bytes :
  outcome (bg_service.remove_background settings image_bytes)
  = match Image_open image_bytes with
    | inl msg => inl (Exception msg)
    | inr im =>
        match outcome (bg_service.resize_if_too_wide settings im) with
        | inl e => inl e
        | inr im1 =>
            match rembg_remove im1 with
            | inl msg => inl (Exception msg)
            | inr im2 =>
                match Image_save_png im2 with
                | inl msg => inl (Exception msg)
                | inr out => inr out
                end
            end
        end
    end.
Proof.
  unfold bg_service.remove_background. cbn.
  destruct (Image_open image_bytes) as [msg|im]; [reflexivity|]. cbn.
  destruct (bg_service.resize_if_too_wide settings im) as [t [e|im1]];
    [reflexivity|]. cbn.
  destruct (rembg_remove im1) as [msg|im2]; [reflexivity|]. cbn.
  destruct (Image_save_png im2); reflexivity.
Qed.

(** Processing fails exactly in one of the listed ways, and only with a
    plain exception carrying the description of the failing stage. *)
Lemma remove_background_fails_iff image_bytes e :
  outcome (bg_service.remove_background settings image_bytes) = inl e
  <-> exists msg, e = Exception msg /\ processing_fails settings image_bytes msg.
Proof.
  rewrite remove_background_outcome. split.
  - destruct (Image_open image_bytes) as [msg|im] eqn:Eo.
    { intros [= <-]. exists msg. split; [reflexivity|]. now apply decode_fails. }
    destruct (outcome (bg_service.resize_if_too_wide settings im))
      as [e1|im1] eqn:Er.
    { intros [= <-]. destruct (resize_raises_exception _ _ _ Er) as [msg ->].
      exists msg. split; [reflexivity|]. eapply resize_fails; eassumption. }
    destruct (rembg_remove im1) as [msg|im2] eqn:Es.
    { intros [= <-]. exists msg. split; [reflexivity|].
      eapply segmentation_fails; eassumption. }
    destruct (Image_save_png im2) as [msg|out] eqn:Ee; [|discriminate].
    intros [= <-]. exists msg. split; [reflexivity|].
    eapply encode_fails; eassumption.
  - intros (msg & -> & Hf).
    destruct Hf as [m Ho|im m Ho Hr|im im1 m Ho Hr Hs|im im1 im2 m Ho Hr Hs He];
      rewrite Ho; try rewrite Hr; try rewrite Hs; try rewrite He; reflexivity.
Qed.

End Processing.

(** ** [POST /api/remove-bg] *)

Lemma rsplit1_stem stem ext :
  ~ In dot ext -> item0 (rsplit1 dot (stem ++ dot :: ext)) = stem.
Proof.
  intros He. unfold rsplit1. rewrite rfind_app_last by assumption.
  pose proof (len_nonneg stem) as Hl.
  destruct (len stem <? 0) eqn:E; [apply Z.ltb_lt in E; lia|].
  cbn. apply firstn_len_app.
Qed.

Lemma rsplit1_no_dot name : ~ In dot name -> item0 (rsplit1 dot name) = name.
Proof.
  intros Hn. unfold rsplit1. rewrite rfind_absent by assumption. reflexivity.
Qed.

Lemma latin1_error_from_none pos s :
  latin1_error_from pos s = None <-> forall c, In c s -> (c < 256)%N.
Proof.
  revert pos. induction s as [|c s IH]; intros pos; simpl.
  - split; [intros _ c []|reflexivity].
  - destruct (c <? 256)%N eqn:E.
    + apply N.ltb_lt in E. rewrite IH. split.
      * intros H x [<-|Hx]; auto.
      * intros H x Hx. apply H. right. assumption.
    + apply N.ltb_ge in E. split; [discriminate|].
      intros H. specialize (H c (or_introl eq_refl)). lia.
Qed.

(** Encoding as latin-1 succeeds exactly on the strings whose code points
    are all below 256. *)
Lemma latin1_error_none s :
  latin1_error s = None <-> forall c, In c s -> (c < 256)%N.
Proof. apply latin1_error_from_none. Qed.

Lemma lit_latin1 s c : In c (lit s) -> (c < 256)%N.
Proof.
  induction s as [|a s IH]; simpl; [tauto|].
  intros [<-|H]; [apply N_ascii_bounded|auto].
Qed.

(** The only header of the handler's response that can fail to encode is
    the value of Content-Disposition. *)
Lemma response_headers_error value :
  init_headers_error (lit "image/png") [(lit "Content-Disposition", value)]
  = latin1_error value.
Proof.
  unfold init_headers_error, headers_error.
  change (latin1_error (lower (lit "Content-Disposition"))) with (@None str).
  destruct (latin1_error value); reflexivity.
Qed.

Section Endpoint.

Context {imaging : Imaging}.
Variable settings : Settings.
Variable allowed_iter : list str.

(** The handler, by the result of validation and of processing. *)
Lemma endpoint_invalid file t reason :
  bg_service.validate_image settings allowed_iter (read file) (filename file)
  = (t, inr (false, reason)) ->
  remove_bg.remove_background settings allowed_iter file
  = (t, inl (HTTPException 400 reason)).
Proof.
  intros Hv. unfold remove_bg.remove_background. rewrite Hv. cbn.
  rewrite !app_nil_r. reflexivity.
Qed.

Lemma endpoint_valid file t reason :
  bg_service.validate_image settings allowed_iter (read file) (filename file)
  = (t, inr (true, reason)) ->
  remove_bg.remove_background settings allowed_iter file
  = (t ++ trace (bg_service.remove_background settings (read file)),
     match outcome (bg_service.remove_background settings (read file)) with
     | inl (HTTPException c d) => inl (HTTPException c d)
     | inl (Exception msg) =>
         inl (HTTPException 500 (lit "Error processing image: " ++ msg))
     | inr output_bytes =>
         match latin1_error (remove_bg.content_disposition file) with
         | Some msg =>
             inl (HTTPException 500 (lit "Error processing image: " ++ msg))
         | None =>
             inr (StreamingResponse_new output_bytes (lit "image/png")
                    [(lit "Content-Disposition",
                      remove_bg.content_disposition file)])
         end
     end).
Proof.
  intros Hv. unfold remove_bg.remove_background. rewrite Hv.
  destruct (bg_service.remove_background settings (read file))
    as [t' [[c d|msg]|out]]; cbn [bind try_except remove_bg.on_exception raise
                                  negb trace outcome fst snd];
    rewrite ?app_nil_r; try reflexivity.
  unfold StreamingResponse_init.
  rewrite response_headers_error.
  destruct (latin1_error (remove_bg.content_disposition file));
    cbn; rewrite ?app_nil_r; reflexivity.
Qed.

(** C1: when [validate_image] returns Invalid for the uploaded bytes and
    file name, the reply is HTTP 400 with the validation reason as detail,
    and the request has done nothing but the validation:
    [bg_service.remove_background] is not entered and no resize,
    segmentation or encoding is called. *)
Theorem invalid_upload_gets_400 file reason :
  outcome (bg_service.validate_image settings allowed_iter
             (read file) (filename file)) = inr (false, reason) ->
  reply_of (outcome (remove_bg.remove_background settings allowed_iter file))
  = ReplyDetail 400 reason
  /\ trace (remove_bg.remove_background settings allowed_iter file)
     = trace (bg_service.validate_image settings allowed_iter
                (read file) (filename file))
  /\ ~ In (EvEnter remove_background_method)
         (trace (remove_bg.remove_background settings allowed_iter file))
  /\ forallb (fun ev => negb (processing_event ev))
       (trace (remove_bg.remove_background settings allowed_iter file)) = true.
Proof.
  intros Hout.
  pose proof (validate_trace settings allowed_iter (read file) (filename file))
    as Htr.
  destruct (bg_service.validate_image settings allowed_iter
              (read file) (filename file)) as [t o] eqn:Hv.
  cbn in Hout, Htr. subst o.
  rewrite (endpoint_invalid _ _ _ Hv). cbn.
  repeat split; try assumption.
  intros Hin. rewrite forallb_forall in Htr. apply Htr in Hin. discriminate.
Qed.

(** C8: when the upload passes validation and the processing fails, at
    whatever stage (decoding, resizing, segmentation, encoding), the reply
    is HTTP 500 with detail "Error processing image: " followed by the
    description of the failure; the stage does not show in the reply, and
    no response body is returned. *)
Theorem processing_failure_gets_500 file reason :
  outcome (bg_service.validate_image settings allowed_iter
             (read file) (filename file)) = inr (true, reason) ->
  (forall msg,
     processing_fails settings (read file) msg ->
     reply_of (outcome (remove_bg.remove_background settings allowed_iter file))
     = ReplyDetail 500 (lit "Error processing image: " ++ msg))
  /\ (forall e,
        outcome (bg_service.remove_background settings (read file)) = inl e ->
        exists msg,
          e = Exception msg
          /\ outcome (remove_bg.remove_background settings allowed_iter file)
             = inl (HTTPException 500 (lit "Error processing image: " ++ msg))).
Proof.
  intros Hout.
  destruct (bg_service.validate_image settings allowed_iter
              (read file) (filename file)) as [t o] eqn:Hv.
  cbn in Hout. subst o. rewrite (endpoint_valid _ _ _ Hv). split.
  - intros msg Hf.
    assert (He : outcome (bg_service.remove_background settings (read file))
                 = inl (Exception msg)).
    { apply remove_background_fails_iff. eauto. }
    rewrite He. reflexivity.
  - intros e He. pose proof He as He'.
    apply remove_background_fails_iff in He' as (msg & -> & _).
    exists msg. rewrite He. auto.
Qed.

(** X16: when the upload passes validation, the processing returns the
    PNG bytes and every code point of the file name is below 256, the reply
    is HTTP 200 with those bytes as body, media type image/png, and the
    header Content-Disposition equal to
    "attachment; filename=no_bg_<stem>.png", the stem being the file name
    without its last ['.'] and what follows it. *)
Theorem success_reply file reason output_bytes :
  outcome (bg_service.validate_image settings allowed_iter
             (read file) (filename file)) = inr (true, reason) ->
  outcome (bg_service.remove_background settings (read file))
  = inr output_bytes ->
  (forall c, In c (filename file) -> (c < 256)%N) ->
  exists stem ext,
    filename file = stem ++ dot :: ext
    /\ ~ In dot ext
    /\ reply_of (outcome (remove_bg.remove_background settings allowed_iter file))
       = ReplyStream
           {| body := output_bytes;
              response_status := 200;
              media_type := lit "image/png";
              headers :=
                [(lit "Content-Disposition",
                  lit "attachment; filename=no_bg_" ++ stem ++ lit ".png")] |}.
Proof.
  intros Hout Hproc Hlatin.
  destruct (validate_true_inv _ _ _ _ _ Hout) as (_ & _ & Hext & _).
  apply allowed_extension_is_spec in Hext as [Hd _].
  destruct (rfind_split dot _ (rfind_present _ _ Hd)) as (stem & ext & Hn & He & _).
  exists stem, ext. split; [assumption|]. split; [assumption|].
  destruct (bg_service.validate_image settings allowed_iter
              (read file) (filename file)) as [t o] eqn:Hv.
  cbn in Hout. subst o. rewrite (endpoint_valid _ _ _ Hv).
  rewrite Hproc.
  assert (Hcd : remove_bg.content_disposition file
                = lit "attachment; filename=no_bg_" ++ stem ++ lit ".png").
  { unfold remove_bg.content_disposition.
    rewrite Hn, rsplit1_stem by assumption. reflexivity. }
  assert (Henc : latin1_error (remove_bg.content_disposition file) = None).
  { apply latin1_error_none. rewrite Hcd. intros c Hc.
    apply in_app_or in Hc as [Hc|Hc]; [eapply lit_latin1; eassumption|].
    apply in_app_or in Hc as [Hc|Hc]; [|eapply lit_latin1; eassumption].
    apply Hlatin. rewrite Hn. apply in_or_app. left. assumption. }
  cbn [outcome snd]. rewrite Henc, Hcd. reflexivity.
Qed.

(** Every failure is caught at the handler: the client gets the streamed
    PNG, a 400 or a 500 built by the handler, never the framework's own
    error page. *)
Lemma endpoint_reply_cases file :
  (exists r, reply_of (outcome (remove_bg.remove_background settings
                                  allowed_iter file)) = ReplyStream r)
  \/ (exists detail, reply_of (outcome (remove_bg.remove_background settings
                                          allowed_iter file))
                      = ReplyDetail 400 detail)
  \/ (exists detail, reply_of (outcome (remove_bg.remove_background settings
                                          allowed_iter file))
                      = ReplyDetail 500 detail).
Proof.
  destruct (validate_returns settings allowed_iter (read file) (filename file))
    as [[valid reason] Hv].
  destruct (bg_service.validate_image settings allowed_iter
              (read file) (filename file)) as [t o] eqn:E.
  cbn in Hv. subst o. destruct valid.
  - rewrite (endpoint_valid _ _ _ E).
    destruct (outcome (bg_service.remove_background settings (read file)))
      as [e|out] eqn:Ep.
    + apply remove_background_fails_iff in Ep as (msg & -> & _).
      right. right. cbn. eauto.
    + cbn [outcome snd].
      destruct (latin1_error (remove_bg.content_disposition file));
        [right; right|left]; cbn; eauto.
  - rewrite (endpoint_invalid _ _ _ E). right. left. cbn. eauto.
Qed.

End Endpoint.

(** ** Concrete runs *)

Lemma toy_resize_gives_size : resize_gives_size toy_imaging.
Proof.
  intros im size im'. cbn. unfold toy_resize.
  destruct ((fst size <? 1) || (snd size <? 1)); [discriminate|].
  intros [= <-]. split; reflexivity.
Qed.

(** Scenario 1 of the specification: six megabytes under the default
    limit. *)
Example six_megabytes_too_large :
  outcome (@bg_service.validate_image toy_imaging default_settings some_order
             six_megabytes (lit "big.jpg"))
  = inr (false, lit "File too large. Maximum size is 5MB, got 6.00MB").
Proof. vm_compute. reflexivity. Qed.

(** Scenario 3 of the specification: 2000 x 1000 becomes 1024 x 512. *)
Example wide_request_resized :
  trace (@bg_service.resize_if_too_wide toy_imaging default_settings wide_image)
  = [EvResize wide_image (1024, 512)].
Proof. vm_compute. reflexivity. Qed.


(** C3, at the file name [İ.png] (U+0130 followed by [.png]): the
    lower-cased substring from the last ['.'] is [.png], an allowed
    extension, and yet [validate_image] returns Invalid with the
    extension-related reason. Lower-casing lengthens the name by one code
    point, and the index of the ['.'] was taken in the original name, so the
    slice starts one code point early. *)
Theorem dotted_capital_I_png_rejected (imaging : Imaging) (allowed_iter : list str) :
  rfind dot dotted_capital_I_png = 1
  /\ lower dotted_capital_I_png = 105%N :: 775%N :: lit ".png"
  /\ bg_service.file_extension dotted_capital_I_png = 775%N :: lit ".png"
  /\ spec_extension dotted_capital_I_png = lit ".png"
  /\ In (spec_extension dotted_capital_I_png) ALLOWED_EXTENSIONS
  /\ len small_upload <= MAX_FILE_SIZE_BYTES default_settings
  /\ outcome (bg_service.validate_image default_settings allowed_iter
                small_upload dotted_capital_I_png)
     = inr (false, bg_service.extension_reason allowed_iter)
  /\ extension_related (bg_service.extension_reason allowed_iter) = true.
Proof.
  repeat split.
  - cbn. auto.
  - discriminate.
Qed.

(** The claim C4 at the file name [photo]: the computed extension is [o],
    not the empty string. *)
Lemma no_dot_extension_is_not_empty :
  ~ In dot (lit "photo")
  /\ bg_service.file_extension (lit "photo") = lit "o"
  /\ bg_service.file_extension (lit "photo") <> [].
Proof.
  split; [|split].
  - cbn. unfold dot. intuition discriminate.
  - reflexivity.
  - discriminate.
Qed.

Lemma no_dot_filename_rejected_witness :
  (~ In dot (filename photo_request)
   /\ len (read photo_request) <= MAX_FILE_SIZE_BYTES default_settings)
  /\ @bg_service.validate_image toy_imaging default_settings some_order
       (read photo_request) (filename photo_request)
     = ([EvEnter validate_image_method],
        inr (false, bg_service.extension_reason some_order)).
Proof.
  assert (H1 : ~ In dot (filename photo_request))
    by (cbn; unfold dot; intuition discriminate).
  assert (H2 : len (read photo_request) <= MAX_FILE_SIZE_BYTES default_settings)
    by (vm_compute; discriminate).
  split; [split; assumption|].
  exact (proj1 (proj2 (proj2 (@no_dot_filename_rejected toy_imaging
                                default_settings some_order
                                (read photo_request) (filename photo_request)
                                H1 H2)))).
Defined.

Lemma validate_valid_iff_witness :
  outcome (@bg_service.validate_image toy_imaging default_settings some_order
             (read cat_request) (filename cat_request))
  = inr (true, []).
Proof.
  apply (proj1 (@validate_valid_iff toy_imaging default_settings some_order
                  (read cat_request) (filename cat_request))).
  split; [vm_compute; discriminate|].
  split; [cbn; auto|].
  eexists. split; reflexivity.
Defined.



Lemma narrow_image_unchanged_witness :
  width narrow_image <= MAX_IMAGE_WIDTH default_settings
  /\ @bg_service.resize_if_too_wide toy_imaging default_settings narrow_image
     = ([], inr narrow_image).
Proof.
  assert (H : width narrow_image <= MAX_IMAGE_WIDTH default_settings)
    by (vm_compute; discriminate).
  split; [exact H|].
  exact (proj1 (@narrow_image_unchanged toy_imaging default_settings
                  narrow_image H)).
Defined.

Lemma invalid_upload_gets_400_witness :
  outcome (@bg_service.validate_image toy_imaging default_settings some_order
             (read gif_request) (filename gif_request))
  = inr (false, lit "Invalid file type. Allowed types: .png, .jpg, .jpeg")
  /\ reply_of (outcome (@remove_bg.remove_background toy_imaging
                          default_settings some_order gif_request))
     = ReplyDetail 400 (lit "Invalid file type. Allowed types: .png, .jpg, .jpeg").
Proof.
  assert (H : outcome (@bg_service.validate_image toy_imaging default_settings
                         some_order (read gif_request) (filename gif_request))
              = inr (false,
                     lit "Invalid file type. Allowed types: .png, .jpg, .jpeg"))
    by reflexivity.
  split; [exact H|].
  exact (proj1 (@invalid_upload_gets_400 toy_imaging default_settings
                  some_order gif_request _ H)).
Defined.

Lemma processing_failure_gets_500_witness :
  outcome (@bg_service.validate_image toy_imaging default_settings some_order
             (read flat_request) (filename flat_request)) = inr (true, [])
  /\ outcome (@bg_service.remove_background toy_imaging default_settings
                (read flat_request))
     = inl (Exception (lit "height and width must be > 0"))
  /\ exists msg,
       Exception (lit "height and width must be > 0") = Exception msg
       /\ outcome (@remove_bg.remove_background toy_imaging default_settings
                     some_order flat_request)
          = inl (HTTPException 500 (lit "Error processing image: " ++ msg)).
Proof.
  assert (H1 : outcome (@bg_service.validate_image toy_imaging default_settings
                          some_order (read flat_request) (filename flat_request))
               = inr (true, []))
    by (vm_compute; reflexivity).
  assert (H2 : outcome (@bg_service.remove_background toy_imaging
                          default_settings (read flat_request))
               = inl (Exception (lit "height and width must be > 0")))
    by (vm_compute; reflexivity).
  split; [exact H1|]. split; [exact H2|].
  exact (proj2 (@processing_failure_gets_500 toy_imaging default_settings
                  some_order flat_request [] H1) _ H2).
Defined.

Lemma success_reply_witness :
  outcome (@bg_service.validate_image toy_imaging default_settings some_order
             (read wide_request) (filename wide_request)) = inr (true, [])
  /\ outcome (@bg_service.remove_background toy_imaging default_settings
                (read wide_request))
     = inr [Byte.x04; Byte.x00; Byte.x02; Byte.x00; Byte.xff]
  /\ (forall c, In c (filename wide_request) -> (c < 256)%N)
  /\ exists stem ext,
       filename wide_request = stem ++ dot :: ext
       /\ ~ In dot ext
       /\ reply_of (outcome (@remove_bg.remove_background toy_imaging
                               default_settings some_order wide_request))
          = ReplyStream
              {| body := [Byte.x04; Byte.x00; Byte.x02; Byte.x00; Byte.xff];
                 response_status := 200;
                 media_type := lit "image/png";
                 headers :=
                   [(lit "Content-Disposition",
                     lit "attachment; filename=no_bg_" ++ stem ++ lit ".png")] |}.
Proof.
  assert (H1 : outcome (@bg_service.validate_image toy_imaging default_settings
                          some_order (read wide_request) (filename wide_request))
               = inr (true, []))
    by (vm_compute; reflexivity).
  assert (H2 : outcome (@bg_service.remove_background toy_imaging
                          default_settings (read wide_request))
               = inr [Byte.x04; Byte.x00; Byte.x02; Byte.x00; Byte.xff])
    by (vm_compute; reflexivity).
  assert (H3 : forall c, In c (filename wide_request) -> (c < 256)%N)
    by (intros c Hc; exact (lit_latin1 _ c Hc)).
  split; [exact H1|]. split; [exact H2|]. split; [exact H3|].
  exact (@success_reply toy_imaging default_settings some_order wide_request
           [] _ H1 H2 H3).
Defined.

(** The header of that reply, spelled out. *)
Example wide_request_header :
  remove_bg.content_disposition wide_request
  = lit "attachment; filename=no_bg_photo.final.png".
Proof. reflexivity. Qed.

(** * Further properties *)

(** ** Lower-casing twice *)


Lemma lower_cp_215 : lower_cp 215%N = [215%N].
Proof. reflexivity. Qed.






(** ** More on [validate_image] *)

Lemma length_skipn_nil {A} n (l : list A) :
  skipn n l = [] -> (List.length l <= n)%nat.
Proof.
  intros H. apply (f_equal (@List.length _)) in H.
  rewrite length_skipn in H. simpl in H. lia.
Qed.

(** X3: the extension check of [validate_image] accepts exactly the names
    that split at their last ['.'] into a stem whose lower case has the
    stem's length, and a suffix whose lower case is [.jpg], [.jpeg] or
    [.png]. *)
Theorem extension_accepted_iff name :
  In (bg_service.file_extension name) ALLOWED_EXTENSIONS
  <-> exists stem ext,
        name = stem ++ dot :: ext
        /\ ~ In dot ext
        /\ List.length (lower stem) = List.length stem
        /\ In (dot :: lower ext) ALLOWED_EXTENSIONS.
Proof.
  split.
  - intros Hin.
    destruct (in_dec N.eq_dec dot name) as [Hd|Hd];
      [|exfalso; eapply file_extension_no_dot_not_allowed; eauto].
    destruct (rfind_split dot name (rfind_present _ _ Hd))
      as (a & b & -> & Hb & _).
    exists a, b. split; [reflexivity|]. split; [assumption|].
    rewrite file_extension_dotted in Hin by assumption.
    destruct (skipn (List.length a) (lower a)) as [|x t] eqn:Es.
    + apply length_skipn_nil in Es. pose proof (lower_length a).
      split; [lia|assumption].
    + exfalso. destruct (allowed_shape _ Hin) as (e' & He & Hno).
      simpl in He. injection He as _ He. apply Hno. rewrite <- He.
      apply in_or_app. right. left. reflexivity.
  - intros (stem & ext & -> & Hext & Hlen & Hin).
    rewrite file_extension_dotted by assumption.
    rewrite <- Hlen, skipn_all. assumption.
Qed.


Section MoreValidation.

Context {imaging : Imaging}.
Variable settings : Settings.
Variable allowed_iter : list str.


(** X1: whatever Pillow does, [validate_image] raises nothing: it returns
    a pair, whose flag is [True] exactly when the message is empty; a
    message of a rejection is of exactly one of the three kinds. *)
Theorem validate_result_shape image_bytes name :
  exists valid reason,
    outcome (bg_service.validate_image settings allowed_iter image_bytes name)
    = inr (valid, reason)
    /\ (valid = true <-> reason = [])
    /\ (valid = false ->
        (size_related reason = true /\ extension_related reason = false
         /\ decode_related reason = false)
        \/ (size_related reason = false /\ extension_related reason = true
            /\ decode_related reason = false)
        \/ (size_related reason = false /\ extension_related reason = false
            /\ decode_related reason = true)).
Proof.
  destruct (Z_gt_le_dec (len image_bytes) (MAX_FILE_SIZE_BYTES settings)) as [H|H].
  { rewrite validate_too_large by assumption. do 2 eexists.
    split; [reflexivity|]. split; [split; discriminate|].
    intros _. left. repeat split. }
  destruct (in_dec str_eq_dec (bg_service.file_extension name) ALLOWED_EXTENSIONS)
    as [He|He].
  2:{ rewrite validate_bad_extension by assumption. do 2 eexists.
      split; [reflexivity|]. split; [split; discriminate|].
      intros _. right. left. repeat split. }
  rewrite validate_decodes by assumption.
  destruct (Image_open image_bytes) as [msg|im].
  { do 2 eexists. split; [reflexivity|]. split; [split; discriminate|].
    intros _. right. right. repeat split. }
  cbn. destruct (Image_verify im) as [msg|[]].
  - do 2 eexists. split; [reflexivity|]. split; [split; discriminate|].
    intros _. right. right. repeat split.
  - do 2 eexists. split; [reflexivity|]. split; [split; reflexivity|].
    discriminate.
Qed.

(** X2: Pillow is asked to open the upload exactly when the size check and
    the extension check have passed; a rejection on size or extension costs
    no decoding, and [verify] is only ever called on the image that
    [Image.open] returned for the uploaded bytes. *)
Theorem validate_opens_iff image_bytes name :
  (In (EvOpen image_bytes)
      (trace (bg_service.validate_image settings allowed_iter image_bytes name))
   <-> len image_bytes <= MAX_FILE_SIZE_BYTES settings
       /\ In (bg_service.file_extension name) ALLOWED_EXTENSIONS)
  /\ (len image_bytes > MAX_FILE_SIZE_BYTES settings
      \/ ~ In (bg_service.file_extension name) ALLOWED_EXTENSIONS ->
      trace (bg_service.validate_image settings allowed_iter image_bytes name)
      = [EvEnter validate_image_method])
  /\ (forall im,
        In (EvVerify im)
           (trace (bg_service.validate_image settings allowed_iter
                     image_bytes name)) ->
        Image_open image_bytes = inr im).
Proof.
  destruct (Z_gt_le_dec (len image_bytes) (MAX_FILE_SIZE_BYTES settings)) as [H|H].
  { rewrite validate_too_large by assumption. unfold trace. simpl fst.
    split; [split|split].
    - intros [Hf|[]]. discriminate.
    - intros [Hle _]. lia.
    - reflexivity.
    - intros im [Hf|[]]. discriminate. }
  destruct (in_dec str_eq_dec (bg_service.file_extension name) ALLOWED_EXTENSIONS)
    as [He|He].
  { rewrite validate_decodes by assumption.
    destruct (Image_open image_bytes) as [msg|im]; unfold trace; simpl fst;
      (split; [split|split]).
    - auto.
    - intros _. right. left. reflexivity.
    - intros [Hgt|Hn]; [lia|contradiction].
    - intros im [Hf|[Hf|[]]]; discriminate.
    - auto.
    - intros _. right. left. reflexivity.
    - intros [Hgt|Hn]; [lia|contradiction].
    - intros im' [Hf|[Hf|[Hf|[]]]]; try discriminate. congruence. }
  rewrite validate_bad_extension by assumption. unfold trace. simpl fst.
  split; [split|split].
  - intros [Hf|[]]. discriminate.
  - intros [_ Hin]. contradiction.
  - reflexivity.
  - intros im [Hf|[]]. discriminate.
Qed.


End MoreValidation.

(** X5: in whatever order the set of allowed extensions is iterated, the
    extension-related message is the fixed sentence followed by the three
    allowed extensions, each once, separated by a comma and a space. *)
Theorem extension_reason_spells_the_set allowed_iter :
  Permutation allowed_iter ALLOWED_EXTENSIONS ->
  exists a b c,
    allowed_iter = [a; b; c]
    /\ In (lit ".jpg") [a; b; c] /\ In (lit ".jpeg") [a; b; c]
    /\ In (lit ".png") [a; b; c]
    /\ bg_service.extension_reason allowed_iter
       = lit "Invalid file type. Allowed types: "
           ++ a ++ lit ", " ++ b ++ lit ", " ++ c.
Proof.
  intros Hp. pose proof (Permutation_length Hp) as Hl.
  destruct allowed_iter as [|a [|b [|c [|d r]]]]; try discriminate Hl.
  exists a, b, c. split; [reflexivity|].
  assert (Hin : forall e, In e ALLOWED_EXTENSIONS -> In e [a; b; c]).
  { intros e He. eapply Permutation_in; [apply Permutation_sym, Hp|exact He]. }
  repeat split; try (apply Hin; cbn; auto).
Qed.

(** ** The size message just above the limit *)

Lemma all_from_true p count : forall lo n,
  all_from p lo count = true ->
  lo <= n < lo + Z.of_nat count -> p n = true.
Proof.
  induction count as [|k IH]; intros lo n Hall Hn.
  - simpl in Hn. lia.
  - simpl in Hall. apply andb_true_iff in Hall as [Hlo Hrest].
    destruct (Z.eq_dec n lo) as [->|Hne]; [assumption|].
    apply (IH (lo + 1)); [assumption|lia].
Qed.

Lemma five_megabytes_and_a_bit_print_as_five :
  all_from (size_prints_as (lit "5.00")) (5 * 1024 * 1024 + 1) (Z.to_nat 5242)
  = true.
Proof. vm_compute. reflexivity. Qed.

(** X6: under the default settings an upload that exceeds five megabytes by
    1 to 5242 bytes is rejected as too large with a message that reports
    its size as the limit itself: "Maximum size is 5MB, got 5.00MB". *)
Theorem barely_too_large_reports_the_limit
  (imaging : Imaging) (allowed_iter : list str) image_bytes name :
  5 * 1024 * 1024 < len image_bytes <= 5 * 1024 * 1024 + 5242 ->
  outcome (bg_service.validate_image default_settings allowed_iter
             image_bytes name)
  = inr (false, lit "File too large. Maximum size is 5MB, got 5.00MB").
Proof.
  intros Hn.
  rewrite validate_too_large
    by (change (MAX_FILE_SIZE_BYTES default_settings) with (5 * 1024 * 1024); lia).
  unfold outcome. simpl snd. unfold bg_service.size_reason.
  pose proof (all_from_true _ _ _ (len image_bytes)
                five_megabytes_and_a_bit_print_as_five) as Hp.
  unfold size_prints_as in Hp.
  destruct (str_eq_dec
              (PyFloat.format_2f (PyFloat.truediv (len image_bytes) (1024 * 1024)))
              (lit "5.00")) as [->|]; [reflexivity|].
  assert (false = true) by (apply Hp; rewrite Z2Nat.id; lia). discriminate.
Qed.

(** ** The calls of [bg_service.remove_background] *)

Section MoreProcessing.

Context {imaging : Imaging}.
Variable settings : Settings.

Lemma resize_trace_cases im :
  (trace (bg_service.resize_if_too_wide settings im) = []
   /\ (MAX_IMAGE_WIDTH settings < width im
       \/ outcome (bg_service.resize_if_too_wide settings im) = inr im))
  \/ exists h,
       MAX_IMAGE_WIDTH settings < width im
       /\ bg_service.resize_if_too_wide settings im
          = ([EvResize im (MAX_IMAGE_WIDTH settings, h)],
             match Image_resize im (MAX_IMAGE_WIDTH settings, h) with
             | inl msg => inl (Exception msg)
             | inr im' => inr im'
             end).
Proof.
  unfold bg_service.resize_if_too_wide, bg_service.new_height.
  destruct (width im >? MAX_IMAGE_WIDTH settings) eqn:E.
  2:{ left. split; [reflexivity|]. right. reflexivity. }
  rewrite Z.gtb_ltb in E. apply Z.ltb_lt in E.
  destruct (width im =? 0); [left; split; [reflexivity|left; assumption]|].
  destruct (PyFloat.to_int _) as [msg|h].
  - left. split; [reflexivity|left; assumption].
  - right. exists h. split; [assumption|reflexivity].
Qed.

(** After the resize step an image is no wider than the limit. *)
Lemma resized_within_limit im im1 :
  resize_gives_size imaging ->
  outcome (bg_service.resize_if_too_wide settings im) = inr im1 ->
  width im1 <= MAX_IMAGE_WIDTH settings.
Proof.
  intros Hsize. unfold bg_service.resize_if_too_wide, bg_service.new_height.
  destruct (width im >? MAX_IMAGE_WIDTH settings) eqn:E.
  2:{ cbn. intros [= <-]. rewrite Z.gtb_ltb in E. apply Z.ltb_ge in E. assumption. }
  destruct (width im =? 0); [discriminate|].
  destruct (PyFloat.to_int _) as [msg|h]; [discriminate|]. cbn.
  destruct (Image_resize im (MAX_IMAGE_WIDTH settings, h)) as [msg|im'] eqn:Er;
    [discriminate|].
  intros [= <-]. destruct (Hsize _ _ _ Er) as [Hw _]. simpl in Hw. lia.
Qed.

(** The trace of the processing, stage by stage. *)
Lemma remove_background_trace image_bytes :
  trace (bg_service.remove_background settings image_bytes)
  = EvEnter remove_background_method :: EvOpen image_bytes ::
    match Image_open image_bytes with
    | inl _ => []
    | inr im =>
        trace (bg_service.resize_if_too_wide settings im)
        ++ match outcome (bg_service.resize_if_too_wide settings im) with
           | inl _ => []
           | inr im1 =>
               EvRemove im1 ::
               match rembg_remove im1 with
               | inl _ => []
               | inr im2 => [EvSave im2]
               end
           end
    end.
Proof.
  unfold bg_service.remove_background. cbn.
  destruct (Image_open image_bytes) as [msg|im]; [reflexivity|]. cbn.
  destruct (bg_service.resize_if_too_wide settings im) as [t [e|im1]]; cbn.
  { rewrite app_nil_r. reflexivity. }
  destruct (rembg_remove im1) as [msg|im2]; cbn; [reflexivity|].
  destruct (Image_save_png im2); reflexivity.
Qed.

(** X8: the processing calls its stages at most once each and in the order
    open, resize, segmentation, encoding; it never calls [verify]. *)
Theorem processing_stages_in_order image_bytes :
  strictly_increasing
    (map stage_rank (trace (bg_service.remove_background settings image_bytes)))
  = true
  /\ forall im,
       ~ In (EvVerify im)
            (trace (bg_service.remove_background settings image_bytes)).
Proof.
  rewrite remove_background_trace.
  destruct (Image_open image_bytes) as [msg|im].
  { split; [reflexivity|]. intros im' [Hf|[Hf|[]]]; discriminate. }
  destruct (resize_trace_cases im) as [[Ht _]|(h & _ & Hr)].
  - rewrite Ht. simpl app.
    destruct (outcome (bg_service.resize_if_too_wide settings im)) as [e|im1].
    { split; [reflexivity|]. intros im' [Hf|[Hf|[]]]; discriminate. }
    destruct (rembg_remove im1) as [msg|im2].
    + split; [reflexivity|]. intros im' [Hf|[Hf|[Hf|[]]]]; discriminate.
    + split; [reflexivity|]. intros im' [Hf|[Hf|[Hf|[Hf|[]]]]]; discriminate.
  - rewrite Hr. unfold trace, outcome. simpl fst. simpl snd. simpl app.
    destruct (Image_resize im (MAX_IMAGE_WIDTH settings, h)) as [msg|im1].
    { split; [reflexivity|]. intros im' [Hf|[Hf|[Hf|[]]]]; discriminate. }
    destruct (rembg_remove im1) as [msg|im2].
    + split; [reflexivity|]. intros im' [Hf|[Hf|[Hf|[Hf|[]]]]]; discriminate.
    + split; [reflexivity|].
      intros im' [Hf|[Hf|[Hf|[Hf|[Hf|[]]]]]]; discriminate.
Qed.

(** The segmentation is only called on what the resize step returned for
    the opened upload. *)
Lemma segmented_image_origin image_bytes im1 :
  In (EvRemove im1) (trace (bg_service.remove_background settings image_bytes)) ->
  exists im,
    Image_open image_bytes = inr im
    /\ outcome (bg_service.resize_if_too_wide settings im) = inr im1.
Proof.
  rewrite remove_background_trace.
  destruct (Image_open image_bytes) as [msg|im].
  { intros [Hf|[Hf|[]]]; discriminate. }
  intros [Hf|[Hf|Hin]]; try discriminate.
  apply in_app_or in Hin as [Hin|Hin].
  { destruct (resize_trace_cases im) as [[Ht _]|(h & _ & Hr)].
    - rewrite Ht in Hin. destruct Hin.
    - rewrite Hr in Hin. destruct Hin as [Hf|[]]. discriminate. }
  destruct (outcome (bg_service.resize_if_too_wide settings im))
    as [e|im1'] eqn:Eo; [destruct Hin|].
  destruct Hin as [[= <-]|Hin]; [exists im; split; [reflexivity|assumption]|].
  destruct (rembg_remove im1') as [msg|im2]; [destruct Hin|].
  destruct Hin as [Hf|[]]. discriminate.
Qed.

(** X12: every stage works on what the stage before it returned: the
    segmentation is called on the image the resize step returned for the
    opened upload, and the encoder on the image the segmentation returned;
    so nothing is called after a stage has failed. *)
Theorem processing_stage_inputs image_bytes :
  (forall im1,
     In (EvRemove im1) (trace (bg_service.remove_background settings image_bytes)) ->
     exists im,
       Image_open image_bytes = inr im
       /\ outcome (bg_service.resize_if_too_wide settings im) = inr im1)
  /\ (forall im2,
        In (EvSave im2) (trace (bg_service.remove_background settings image_bytes)) ->
        exists im1,
          In (EvRemove im1)
             (trace (bg_service.remove_background settings image_bytes))
          /\ rembg_remove im1 = inr im2)
  /\ (forall im size,
        In (EvResize im size)
           (trace (bg_service.remove_background settings image_bytes)) ->
        Image_open image_bytes = inr im
        /\ MAX_IMAGE_WIDTH settings < width im
        /\ fst size = MAX_IMAGE_WIDTH settings).
Proof.
  split; [apply segmented_image_origin|].
  rewrite remove_background_trace.
  destruct (Image_open image_bytes) as [msg|im].
  { split.
    - intros im2 [Hf|[Hf|[]]]; discriminate.
    - intros im' size [Hf|[Hf|[]]]; discriminate. }
  assert (Hres : forall ev,
            In ev (trace (bg_service.resize_if_too_wide settings im)) ->
            exists h, ev = EvResize im (MAX_IMAGE_WIDTH settings, h)
                      /\ MAX_IMAGE_WIDTH settings < width im).
  { intros ev Hev.
    destruct (resize_trace_cases im) as [[Ht _]|(h & Hw & Hr)].
    - rewrite Ht in Hev. destruct Hev.
    - rewrite Hr in Hev. destruct Hev as [<-|[]]. eauto. }
  split.
  - intros im2 [Hf|[Hf|Hin]]; try discriminate.
    apply in_app_or in Hin as [Hin|Hin].
    { apply Hres in Hin as (h & Hf & _). discriminate. }
    destruct (outcome (bg_service.resize_if_too_wide settings im)) as [e|im1];
      [destruct Hin|].
    destruct Hin as [Hf|Hin]; [discriminate|].
    destruct (rembg_remove im1) as [msg|im2'] eqn:Es; [destruct Hin|].
    destruct Hin as [[= <-]|[]].
    exists im1. split; [|assumption].
    right. right. apply in_or_app. right. left. reflexivity.
  - intros im' size [Hf|[Hf|Hin]]; try discriminate.
    apply in_app_or in Hin as [Hin|Hin].
    { apply Hres in Hin as (h & [= -> ->] & Hw). auto. }
    destruct (outcome (bg_service.resize_if_too_wide settings im)) as [e|im1];
      [destruct Hin|].
    destruct Hin as [Hf|Hin]; [discriminate|].
    destruct (rembg_remove im1) as [msg|im2]; [destruct Hin|].
    destruct Hin as [Hf|[]]. discriminate.
Qed.

End MoreProcessing.

(** ** More on [POST /api/remove-bg] *)

Section MoreEndpoint.

Context {imaging : Imaging}.
Variable settings : Settings.
Variable allowed_iter : list str.

(** The trace of a request: the validation, then, for a valid upload, the
    processing. *)
Lemma endpoint_trace file :
  exists valid reason,
    outcome (bg_service.validate_image settings allowed_iter
               (read file) (filename file)) = inr (valid, reason)
    /\ trace (remove_bg.remove_background settings allowed_iter file)
       = trace (bg_service.validate_image settings allowed_iter
                  (read file) (filename file))
         ++ (if valid
             then trace (bg_service.remove_background settings (read file))
             else []).
Proof.
  destruct (validate_returns settings allowed_iter (read file) (filename file))
    as [[valid reason] Hv].
  exists valid, reason. split; [assumption|].
  destruct (bg_service.validate_image settings allowed_iter
              (read file) (filename file)) as [t o] eqn:E.
  cbn in Hv. subst o. destruct valid.
  - rewrite (endpoint_valid _ _ _ _ _ E). reflexivity.
  - rewrite (endpoint_invalid _ _ _ _ _ E). cbn. rewrite app_nil_r. reflexivity.
Qed.

(** X7: whatever is uploaded, the segmentation model is only ever called
    on an image no wider than [MAX_IMAGE_WIDTH], given that Pillow's resize
    returns the size it is asked for. *)
Theorem segmentation_input_within_limit file im1 :
  resize_gives_size imaging ->
  In (EvRemove im1)
     (trace (remove_bg.remove_background settings allowed_iter file)) ->
  width im1 <= MAX_IMAGE_WIDTH settings.
Proof.
  intros Hsize Hin.
  destruct (endpoint_trace file) as (valid & reason & _ & Ht).
  rewrite Ht in Hin. apply in_app_or in Hin as [Hin|Hin].
  - pose proof (validate_trace settings allowed_iter (read file) (filename file))
      as Hv.
    rewrite forallb_forall in Hv. apply Hv in Hin. discriminate.
  - destruct valid; [|destruct Hin].
    apply segmented_image_origin in Hin as (im & _ & Hr).
    eapply resized_within_limit; eassumption.
Qed.

(** X9: the reply is decided by the two service calls and the encoding
    of the Content-Disposition value, and by nothing else: it is a 400
    exactly when validation rejects, with the reason as detail; the
    streamed PNG exactly when validation accepts, processing returns and
    the header value encodes as latin-1; a 500 exactly when validation
    accepts and either processing raises or it returns and the header value
    does not encode, the detail being "Error processing image: " followed
    by the description of that failure. *)
Theorem reply_decision_table file :
  (forall c detail,
     reply_of (outcome (remove_bg.remove_background settings allowed_iter file))
     = ReplyDetail c detail ->
     c = 400 \/ c = 500)
  /\ (forall detail,
        reply_of (outcome (remove_bg.remove_background settings allowed_iter file))
        = ReplyDetail 400 detail
        <-> outcome (bg_service.validate_image settings allowed_iter
                       (read file) (filename file)) = inr (false, detail))
  /\ (forall r,
        reply_of (outcome (remove_bg.remove_background settings allowed_iter file))
        = ReplyStream r
        <-> exists output_bytes,
              outcome (bg_service.validate_image settings allowed_iter
                         (read file) (filename file)) = inr (true, [])
              /\ outcome (bg_service.remove_background settings (read file))
                 = inr output_bytes
              /\ latin1_error (remove_bg.content_disposition file) = None
              /\ r = StreamingResponse_new output_bytes (lit "image/png")
                       [(lit "Content-Disposition",
                         remove_bg.content_disposition file)])
  /\ (forall detail,
        reply_of (outcome (remove_bg.remove_background settings allowed_iter file))
        = ReplyDetail 500 detail
        <-> exists msg,
              outcome (bg_service.validate_image settings allowed_iter
                         (read file) (filename file)) = inr (true, [])
              /\ (outcome (bg_service.remove_background settings (read file))
                  = inl (Exception msg)
                  \/ (exists output_bytes,
                        outcome (bg_service.remove_background settings
                                   (read file)) = inr output_bytes)
                     /\ latin1_error (remove_bg.content_disposition file)
                        = Some msg)
              /\ detail = lit "Error processing image: " ++ msg).
Proof.
  destruct (validate_returns settings allowed_iter (read file) (filename file))
    as [[valid reason] Hv].
  destruct (bg_service.validate_image settings allowed_iter
              (read file) (filename file)) as [t o] eqn:E.
  cbn in Hv. subst o. destruct valid.
  - assert (reason = []) as ->.
    { eapply (validate_true_inv settings allowed_iter). rewrite E. reflexivity. }
    destruct (outcome (bg_service.remove_background settings (read file)))
      as [e|out] eqn:Ep.
    + pose proof Ep as Ep'.
      apply remove_background_fails_iff in Ep' as (msg & -> & _).
      rewrite (endpoint_valid _ _ _ _ _ E), Ep. cbn.
      split; [|split; [|split]].
      * intros c detail [= <- _]. auto.
      * intros detail. split; discriminate.
      * intros r. split; [discriminate|].
        intros (out & _ & Hout & _). discriminate.
      * intros detail. split.
        -- intros [= <-]. exists msg. auto.
        -- intros (msg' & _ & [[= <-]|[[out Hf] _]] & ->);
             [reflexivity|discriminate].
    + rewrite (endpoint_valid _ _ _ _ _ E), Ep. cbn [outcome snd].
      destruct (latin1_error (remove_bg.content_disposition file)) as [msg|];
        cbn; (split; [|split; [|split]]).
      * intros c detail [= <- _]. auto.
      * intros detail. split; discriminate.
      * intros r. split; [discriminate|].
        intros (out' & _ & _ & Hf & _). discriminate.
      * intros detail. split.
        -- intros [= <-]. exists msg. split; [reflexivity|].
           split; [right; eauto|reflexivity].
        -- intros (msg' & _ & [Hf|[_ [= <-]]] & ->);
             [discriminate|reflexivity].
      * discriminate.
      * intros detail. split; discriminate.
      * intros r. split.
        -- intros [= <-]. exists out. auto.
        -- intros (out' & _ & [= <-] & _ & ->). reflexivity.
      * intros detail. split; [discriminate|].
        intros (msg & _ & [Hf|[_ Hf]] & _); discriminate.
  - rewrite (endpoint_invalid _ _ _ _ _ E). cbn.
    split; [|split; [|split]].
    + intros c detail [= <- _]. auto.
    + intros detail. split; intros [= <-]; reflexivity.
    + intros r. split; [discriminate|].
      intros (out & Hf & _). discriminate.
    + intros detail. split; [discriminate|].
      intros (msg & Hf & _). discriminate.
Qed.

(** X10: a valid upload is decoded twice: [Image.open] is called on the
    uploaded bytes once by the validation and once more by the processing;
    a rejected upload is opened at most once. *)
Theorem valid_upload_opened_twice file :
  (forall reason,
     outcome (bg_service.validate_image settings allowed_iter
                (read file) (filename file)) = inr (true, reason) ->
     filter is_open_event
       (trace (remove_bg.remove_background settings allowed_iter file))
     = [EvOpen (read file); EvOpen (read file)])
  /\ (forall reason,
        outcome (bg_service.validate_image settings allowed_iter
                   (read file) (filename file)) = inr (false, reason) ->
        (List.length
           (filter is_open_event
              (trace (remove_bg.remove_background settings allowed_iter file)))
         <= 1)%nat).
Proof.
  destruct (endpoint_trace file) as (valid & reason0 & Hv & Ht).
  rewrite Ht. split; intros reason Hout; rewrite Hout in Hv;
    injection Hv as <- <-; rewrite filter_app.
  - destruct (validate_true_inv _ _ _ _ _ Hout) as (_ & Hs & He & im & Ho & _).
    rewrite validate_decodes by assumption. rewrite Ho.
    rewrite remove_background_trace, Ho.
    unfold trace at 1. simpl fst. simpl filter at 1.
    assert (Hno : filter is_open_event
                    (trace (bg_service.resize_if_too_wide settings im)
                     ++ match outcome (bg_service.resize_if_too_wide settings im) with
                        | inl _ => []
                        | inr im1 =>
                            EvRemove im1 ::
                            match rembg_remove im1 with
                            | inl _ => []
                            | inr im2 => [EvSave im2]
                            end
                        end) = []).
    { rewrite filter_app.
      destruct (resize_trace_cases settings im) as [[Hr _]|(h & _ & Hr)];
        rewrite Hr; simpl;
        [destruct (outcome (bg_service.resize_if_too_wide settings im)) as [e|im1]
        |destruct (Image_resize im (MAX_IMAGE_WIDTH settings, h)) as [e|im1]];
        simpl; try reflexivity; destruct (rembg_remove im1); reflexivity. }
    cbn [filter is_open_event app]. rewrite Hno. reflexivity.
  - rewrite app_nil_r.
    destruct (Z_gt_le_dec (len (read file)) (MAX_FILE_SIZE_BYTES settings))
      as [H|H].
    { rewrite validate_too_large by assumption. cbn. lia. }
    destruct (in_dec str_eq_dec (bg_service.file_extension (filename file))
                ALLOWED_EXTENSIONS) as [He|He].
    + rewrite validate_decodes by assumption.
      destruct (Image_open (read file)); cbn; lia.
    + rewrite validate_bad_extension by assumption. cbn. lia.
Qed.

(** X11: the validator and the response header split the file name at the
    same ['.']: a validated name is a stem followed by a suffix whose lower
    case is an allowed extension, and the download name is "no_bg_", that
    stem, and ".png". *)
Theorem download_name_replaces_suffix file reason :
  outcome (bg_service.validate_image settings allowed_iter
             (read file) (filename file)) = inr (true, reason) ->
  exists stem suffix,
    filename file = stem ++ suffix
    /\ In (lower suffix) ALLOWED_EXTENSIONS
    /\ remove_bg.content_disposition file
       = lit "attachment; filename=no_bg_" ++ stem ++ lit ".png".
Proof.
  intros Hout.
  destruct (validate_true_inv _ _ _ _ _ Hout) as (_ & _ & Hext & _).
  destruct (allowed_extension_is_spec _ Hext) as [Hd Heq].
  destruct (rfind_split dot _ (rfind_present _ _ Hd)) as (stem & ext & Hn & He & _).
  exists stem, (dot :: ext). split; [assumption|]. split.
  - rewrite Heq, Hn, spec_extension_dotted in Hext by assumption. exact Hext.
  - unfold remove_bg.content_disposition. rewrite Hn, rsplit1_stem by assumption.
    reflexivity.
Qed.

(** X13: a streamed reply carries exactly the pipeline's result: its body
    is what the PNG encoder returned for the image the segmentation
    returned for the opened, verified and, if too wide, resized upload; its
    status is 200 and its media type image/png. *)
Theorem streamed_body_is_pipeline_result file r :
  reply_of (outcome (remove_bg.remove_background settings allowed_iter file))
  = ReplyStream r ->
  exists im im1 im2,
    Image_open (read file) = inr im
    /\ Image_verify im = inr tt
    /\ outcome (bg_service.resize_if_too_wide settings im) = inr im1
    /\ rembg_remove im1 = inr im2
    /\ Image_save_png im2 = inr (body r)
    /\ response_status r = 200
    /\ media_type r = lit "image/png".
Proof.
  destruct (validate_returns settings allowed_iter (read file) (filename file))
    as [[valid reason] Hv].
  pose proof Hv as Hv'.
  destruct (bg_service.validate_image settings allowed_iter
              (read file) (filename file)) as [t o] eqn:E.
  cbn in Hv. subst o. destruct valid.
  2:{ rewrite (endpoint_invalid _ _ _ _ _ E). discriminate. }
  rewrite (endpoint_valid _ _ _ _ _ E).
  destruct (outcome (bg_service.remove_background settings (read file)))
    as [e|out] eqn:Ep.
  { apply remove_background_fails_iff in Ep as (msg & -> & _). discriminate. }
  cbn [outcome snd].
  destruct (latin1_error (remove_bg.content_disposition file)); [discriminate|].
  cbn. intros [= <-].
  assert (Hval : outcome (bg_service.validate_image settings allowed_iter
                            (read file) (filename file)) = inr (true, reason))
    by (rewrite E; reflexivity).
  destruct (validate_true_inv _ _ _ _ _ Hval) as (_ & _ & _ & im & Ho & Hver).
  rewrite remove_background_outcome, Ho in Ep.
  destruct (outcome (bg_service.resize_if_too_wide settings im))
    as [e|im1] eqn:Er; [discriminate|].
  destruct (rembg_remove im1) as [msg|im2] eqn:Es; [discriminate|].
  destruct (Image_save_png im2) as [msg|out'] eqn:Ee; [discriminate|].
  injection Ep as <-.
  exists im, im1, im2. cbn. auto 10.
Qed.

End MoreEndpoint.

(** ** Further concrete runs *)


Lemma extension_reason_spells_the_set_witness :
  Permutation some_order ALLOWED_EXTENSIONS
  /\ exists a b c,
       some_order = [a; b; c]
       /\ In (lit ".jpg") [a; b; c] /\ In (lit ".jpeg") [a; b; c]
       /\ In (lit ".png") [a; b; c]
       /\ bg_service.extension_reason some_order
          = lit "Invalid file type. Allowed types: "
              ++ a ++ lit ", " ++ b ++ lit ", " ++ c.
Proof.
  assert (H : Permutation some_order ALLOWED_EXTENSIONS)
    by exact (Permutation_cons_append [lit ".jpg"; lit ".jpeg"] (lit ".png")).
  split; [exact H|].
  exact (extension_reason_spells_the_set some_order H).
Defined.

Lemma barely_too_large_reports_the_limit_witness :
  5 * 1024 * 1024 < len barely_too_large <= 5 * 1024 * 1024 + 5242
  /\ outcome (@bg_service.validate_image toy_imaging default_settings some_order
                barely_too_large (lit "big.jpg"))
     = inr (false, lit "File too large. Maximum size is 5MB, got 5.00MB").
Proof.
  assert (H : 5 * 1024 * 1024 < len barely_too_large <= 5 * 1024 * 1024 + 5242)
    by (split; vm_compute; [reflexivity|discriminate]).
  split; [exact H|].
  exact (barely_too_large_reports_the_limit toy_imaging some_order
           barely_too_large (lit "big.jpg") H).
Defined.

Lemma segmentation_input_within_limit_witness :
  In (EvRemove (mkImage 1024 512 [Byte.xff]))
     (trace (@remove_bg.remove_background toy_imaging default_settings
               some_order wide_request))
  /\ width (mkImage 1024 512 [Byte.xff]) <= MAX_IMAGE_WIDTH default_settings.
Proof.
  assert (H : In (EvRemove (mkImage 1024 512 [Byte.xff]))
                (trace (@remove_bg.remove_background toy_imaging
                          default_settings some_order wide_request)))
    by (vm_compute; do 6 right; left; reflexivity).
  split; [exact H|].
  exact (@segmentation_input_within_limit toy_imaging default_settings
           some_order wide_request _ toy_resize_gives_size H).
Defined.

Lemma download_name_replaces_suffix_witness :
  outcome (@bg_service.validate_image toy_imaging default_settings some_order
             (read wide_request) (filename wide_request)) = inr (true, [])
  /\ exists stem suffix,
       filename wide_request = stem ++ suffix
       /\ In (lower suffix) ALLOWED_EXTENSIONS
       /\ remove_bg.content_disposition wide_request
          = lit "attachment; filename=no_bg_" ++ stem ++ lit ".png".
Proof.
  assert (H : outcome (@bg_service.validate_image toy_imaging default_settings
                         some_order (read wide_request) (filename wide_request))
              = inr (true, []))
    by (vm_compute; reflexivity).
  split; [exact H|].
  exact (@download_name_replaces_suffix toy_imaging default_settings some_order
           wide_request [] H).
Defined.

Lemma valid_upload_opened_twice_witness :
  filter is_open_event
    (trace (@remove_bg.remove_background toy_imaging default_settings
              some_order wide_request))
  = [EvOpen (read wide_request); EvOpen (read wide_request)].
Proof.
  apply (proj1 (@valid_upload_opened_twice toy_imaging default_settings
                  some_order wide_request) []).
  vm_compute. reflexivity.
Defined.

Lemma streamed_body_is_pipeline_result_witness :
  reply_of (outcome (@remove_bg.remove_background toy_imaging default_settings
                       some_order wide_request))
  = ReplyStream
      (StreamingResponse_new
         [Byte.x04; Byte.x00; Byte.x02; Byte.x00; Byte.xff] (lit "image/png")
         [(lit "Content-Disposition",
           remove_bg.content_disposition wide_request)])
  /\ exists im im1 im2,
       toy_open (read wide_request) = inr im
       /\ toy_verify im = inr tt
       /\ outcome (@bg_service.resize_if_too_wide toy_imaging default_settings im)
          = inr im1
       /\ inr im1 = (inr im2 : str + Image)
       /\ toy_save im2 = inr [Byte.x04; Byte.x00; Byte.x02; Byte.x00; Byte.xff]
       /\ 200 = 200
       /\ lit "image/png" = lit "image/png".
Proof.
  assert (H : reply_of (outcome (@remove_bg.remove_background toy_imaging
                                   default_settings some_order wide_request))
              = ReplyStream
                  (StreamingResponse_new
                     [Byte.x04; Byte.x00; Byte.x02; Byte.x00; Byte.xff]
                     (lit "image/png")
                     [(lit "Content-Disposition",
                       remove_bg.content_disposition wide_request)]))
    by (vm_compute; reflexivity).
  split; [exact H|].
  exact (@streamed_body_is_pipeline_result toy_imaging default_settings
           some_order wide_request _ H).
Defined.

(** ** The links of [GET /] *)

(** X14: whatever the settings, the two API links that the root endpoint
    advertises are routes of the application: its "health" entry is the
    path under which [health_check] is mounted for GET, and its
    "remove_background" entry is the method and the path under which the
    upload handler is mounted. *)
Theorem root_links_are_routes (s : Settings) :
  (exists path,
     dict_get (lit "health") (main.root s) = Some (JStr path)
     /\ find_route GET path app_routes = Some health_check_handler)
  /\ (exists fields m path,
        dict_get (lit "endpoints") (main.root s) = Some (JObj fields)
        /\ dict_get (lit "remove_background") fields
           = Some (method_name m ++ lit " " ++ path)
        /\ find_route m path app_routes = Some remove_background_handler).
Proof.
  split.
  - eexists. split; reflexivity.
  - exists [(lit "remove_background", lit "POST /api/remove-bg")], POST,
      (lit "/api/remove-bg").
    repeat split.
Qed.

(** ** The two names that the handler treats wrongly *)

Example latin1_error_of_one_character :
  latin1_error (lit "ab" ++ [1092%N] ++ lit "c")
  = Some (lit "'latin-1' codec can't encode character '\u0444' in position 2: ordinal not in range(256)").
Proof. reflexivity. Qed.

Example latin1_error_of_an_emoji :
  latin1_error (lit "a" ++ [128512%N] ++ lit "b")
  = Some (lit "'latin-1' codec can't encode character '\U0001f600' in position 1: ordinal not in range(256)").
Proof. reflexivity. Qed.

Example latin1_error_of_a_run :
  latin1_error (remove_bg.content_disposition cyrillic_request)
  = Some (lit "'latin-1' codec can't encode characters in position 27-30: ordinal not in range(256)").
Proof. reflexivity. Qed.

Example latin1_accepts_e_acute :
  latin1_error (lit "caf" ++ [233%N] ++ lit ".png") = None.
Proof. reflexivity. Qed.

(** C7, at the file name [İ.png] with the bytes of a valid image: the byte
    length is within the limit, the lower-cased substring from the last
    ['.'] is the allowed extension [.png], and the bytes open and verify,
    so all three checks of the claim pass; yet [validate_image] returns
    Invalid with the extension-related reason, not [True] with the empty
    reason. This is the slice of C3: the index of the ['.'] is taken in
    the original name and applied to the lower-cased one. *)
Theorem valid_image_named_dotted_I_png_rejected
  (imaging : Imaging) (settings : Settings) (allowed_iter : list str)
  (image_bytes : bytes) (im : Image) :
  len image_bytes <= MAX_FILE_SIZE_BYTES settings ->
  Image_open image_bytes = inr im ->
  Image_verify im = inr tt ->
  In (spec_extension dotted_capital_I_png) ALLOWED_EXTENSIONS
  /\ outcome (bg_service.validate_image settings allowed_iter
                image_bytes dotted_capital_I_png)
     = inr (false, bg_service.extension_reason allowed_iter)
  /\ outcome (bg_service.validate_image settings allowed_iter
                image_bytes dotted_capital_I_png)
     <> inr (true, []).
Proof.
  intros Hsize _ _.
  assert (Hrej : outcome (bg_service.validate_image settings allowed_iter
                            image_bytes dotted_capital_I_png)
                 = inr (false, bg_service.extension_reason allowed_iter)).
  { rewrite validate_bad_extension; [reflexivity|assumption|].
    intros Hin. apply allowed_long in Hin as Hl.
    destruct (allowed_shape _ Hin) as (e' & He & _). discriminate He. }
  split; [cbn; auto|]. split; [exact Hrej|].
  rewrite Hrej. discriminate.
Qed.

Lemma valid_image_named_dotted_I_png_rejected_witness :
  (len (read dotted_I_request) <= MAX_FILE_SIZE_BYTES default_settings
   /\ toy_open (read dotted_I_request) = inr narrow_image
   /\ toy_verify narrow_image = inr tt)
  /\ outcome (@bg_service.validate_image toy_imaging default_settings some_order
                (read dotted_I_request) (filename dotted_I_request))
     = inr (false, bg_service.extension_reason some_order).
Proof.
  assert (H1 : len (read dotted_I_request) <= MAX_FILE_SIZE_BYTES default_settings)
    by (vm_compute; discriminate).
  assert (H2 : toy_open (read dotted_I_request) = inr narrow_image)
    by reflexivity.
  assert (H3 : toy_verify narrow_image = inr tt) by reflexivity.
  split; [repeat split; assumption|].
  exact (proj1 (proj2 (valid_image_named_dotted_I_png_rejected toy_imaging
                         default_settings some_order (read dotted_I_request)
                         narrow_image H1 H2 H3))).
Defined.

(** C9, at the file name [фото.png]: the upload passes validation and the
    processing returns the PNG bytes, so the pipeline has completed; the
    handler then builds the response, the framework encodes the header
    value "attachment; filename=no_bg_фото.png" as latin-1, the four
    Cyrillic letters at positions 27 to 30 do not encode, and the second
    [except] clause turns the UnicodeEncodeError into a 500, where the
    claim has a 200 carrying the PNG. *)
Theorem cyrillic_name_gets_500
  (imaging : Imaging) (settings : Settings) (allowed_iter : list str)
  (image_bytes : bytes) (reason : str) (output_bytes : bytes) :
  outcome (bg_service.validate_image settings allowed_iter
             image_bytes cyrillic_photo_png) = inr (true, reason) ->
  outcome (bg_service.remove_background settings image_bytes)
  = inr output_bytes ->
  reply_of (outcome (remove_bg.remove_background settings allowed_iter
                       (mkUploadFile cyrillic_photo_png image_bytes)))
  = ReplyDetail 500
      (lit "Error processing image: 'latin-1' codec can't encode characters in position 27-30: ordinal not in range(256)").
Proof.
  intros Hout Hproc.
  destruct (bg_service.validate_image settings allowed_iter
              image_bytes cyrillic_photo_png) as [t o] eqn:Hv.
  cbn in Hout. subst o.
  rewrite (endpoint_valid settings allowed_iter
             (mkUploadFile cyrillic_photo_png image_bytes) t reason Hv).
  cbn [read]. rewrite Hproc. reflexivity.
Qed.

Lemma cyrillic_name_gets_500_witness :
  outcome (@bg_service.validate_image toy_imaging default_settings some_order
             (read cyrillic_request) (filename cyrillic_request))
  = inr (true, [])
  /\ outcome (@bg_service.remove_background toy_imaging default_settings
                (read cyrillic_request))
     = inr [Byte.x04; Byte.x00; Byte.x02; Byte.x00; Byte.xff]
  /\ reply_of (outcome (@remove_bg.remove_background toy_imaging
                          default_settings some_order cyrillic_request))
     = ReplyDetail 500
         (lit "Error processing image: 'latin-1' codec can't encode characters in position 27-30: ordinal not in range(256)").
Proof.
  assert (H1 : outcome (@bg_service.validate_image toy_imaging default_settings
                          some_order (read cyrillic_request)
                          (filename cyrillic_request)) = inr (true, []))
    by (vm_compute; reflexivity).
  assert (H2 : outcome (@bg_service.remove_background toy_imaging
                          default_settings (read cyrillic_request))
               = inr [Byte.x04; Byte.x00; Byte.x02; Byte.x00; Byte.xff])
    by (vm_compute; reflexivity).
  split; [exact H1|]. split; [exact H2|].
  exact (cyrillic_name_gets_500 toy_imaging default_settings some_order
           (read cyrillic_request) [] _ H1 H2).
Defined.
